(** * Valvelet: the projection and comparison engine of [valvelet.py]

    A shallow embedding of the simulation core of the runway calculator:
    [daily_income], [daily_scenario_cost], [simulate], [SimResult.truncated]
    and [Valvelet._run_all_scenarios].

    - Python [float] values are IEEE 754 binary64 numbers; they are modelled by
      [spec_float] with precision 53 and maximal exponent 1024, rounding to
      nearest-even, so that NaN, the infinities and the signed zeros behave as
      in the interpreter.
    - [datetime.date] values are modelled by their proleptic Gregorian ordinal,
      which ranges over [1 .. 3652059]; adding a [timedelta] that leaves this
      range raises [OverflowError].
    - Python [int] values are [Z].
    - The [for]/[break] loop of [simulate] threads its local variables through
      an explicit loop state. *)

From Stdlib Require Import ZArith List Bool String Lia Permutation Sorted Eqdep_dec.
From Stdlib Require Import DecimalString.
From Stdlib Require Import Floats.SpecFloat.
Import ListNotations.
Local Open Scope Z_scope.

(** ** Floating point numbers *)

Module Float.

Definition prec : Z := 53.
Definition emax : Z := 1024.

Definition float : Type := spec_float.

Definition add : float -> float -> float := SFadd prec emax.
Definition sub : float -> float -> float := SFsub prec emax.
Definition mul : float -> float -> float := SFmul prec emax.
Definition div : float -> float -> float := SFdiv prec emax.
Definition leb : float -> float -> bool := SFleb.
Definition ltb : float -> float -> bool := SFltb.

(** Conversion of a Python [int] to a [float] (round to nearest-even). *)
Definition of_Z (z : Z) : float := binary_normalize prec emax z 0 false.

(** The literal [0.0]. *)
Definition zero : float := S754_zero false.

Definition is_nan (x : float) : bool :=
  match x with S754_nan => true | _ => false end.

End Float.

Abbreviation float := Float.float.

(** ** Dates *)

Definition MINORDINAL : Z := 1.
(** The ordinal of [date.max], 9999-12-31. *)
Definition MAXORDINAL : Z := 3652059.

Definition ordinal_in_range (z : Z) : bool :=
  (MINORDINAL <=? z) && (z <=? MAXORDINAL).

Record date : Type := Date {
  toordinal : Z;
  date_ok : ordinal_in_range toordinal = true
}.

(** [date.fromordinal], undefined outside the supported range. *)
Definition fromordinal (z : Z) : option date :=
  match bool_dec (ordinal_in_range z) true with
  | left H => Some (Date z H)
  | right _ => None
  end.

Definition date_max : date := Date MAXORDINAL eq_refl.

Definition date_ltb (a b : date) : bool := toordinal a <? toordinal b.
Definition date_leb (a b : date) : bool := toordinal a <=? toordinal b.
Definition date_eqb (a b : date) : bool := toordinal a =? toordinal b.

(** ** Exceptions *)

Inductive exn : Type :=
| OverflowError.

Inductive result (A : Type) : Type :=
| Ok (a : A)
| Raise (e : exn).
Arguments Ok {A} a.
Arguments Raise {A} e.

Definition bind {A B : Type} (m : result A) (k : A -> result B) : result B :=
  match m with
  | Ok a => k a
  | Raise e => Raise e
  end.

Notation "x <- m ;; k" := (bind m (fun x => k))
  (at level 61, m at next level, right associativity).

(** [start + timedelta(days=i)]. *)
Definition date_add_days (d : date) (i : Z) : result date :=
  match fromordinal (toordinal d + i) with
  | Some d' => Ok d'
  | None => Raise OverflowError
  end.

(** ** Constants *)

Definition MAX_DAYS_DEFAULT : Z := 36500.
Definition CHART_FALLBACK_DAYS : Z := 3650.
Definition DAYS_PER_MONTH : float := Float.of_Z 30.
Definition DAYS_PER_WEEK : float := Float.of_Z 7.

(** ** Data classes *)

Record IncomeEntry : Type := mkIncomeEntry {
  source : string;
  amount : float;
  frequency : string;
  start : date;
  end_ : option date
}.

Record Activity : Type := mkActivity {
  act_name : string;
  cost : float;
  days_per_week : float
}.

Record Scenario : Type := mkScenario {
  scn_name : string;
  activities : list Activity
}.

Record SimResult : Type := mkSimResult {
  name : string;
  dates : list date;
  balances : list float;
  death_day : option date;
  daily_burn : float;
  monthly_burn : float;
  daily_income_avg : float
}.

(** [len(l)] *)
Definition len {A : Type} (l : list A) : Z := Z.of_nat (List.length l).

(** The slice [l[:n]]: a negative bound counts from the end of the list. *)
Definition slice_to {A : Type} (l : list A) (n : Z) : list A :=
  if n <? 0 then firstn (Z.to_nat (Z.max (len l + n) 0)) l
  else firstn (Z.to_nat n) l.

Definition truncated (self : SimResult) (length : Z) : SimResult :=
  mkSimResult
    (name self)
    (slice_to (dates self) length)
    (slice_to (balances self) length)
    (death_day self)
    (daily_burn self)
    (monthly_burn self)
    (daily_income_avg self).

(** ** Simulation *)

(** One iteration of the loop body of [daily_income]. *)
Definition income_step (d : date) (total : float) (inc : IncomeEntry) : float :=
  if date_ltb d (start inc) then total
  else if match end_ inc with
          | Some e => date_ltb e d
          | None => false
          end then total
  else if String.eqb (frequency inc) "daily" then Float.add total (amount inc)
  else if String.eqb (frequency inc) "monthly" then
    Float.add total (Float.div (amount inc) DAYS_PER_MONTH)
  else if String.eqb (frequency inc) "weekly" then
    Float.add total (Float.div (amount inc) DAYS_PER_WEEK)
  else if String.eqb (frequency inc) "once" then
    if date_eqb d (start inc) then Float.add total (amount inc) else total
  else total.

Definition daily_income (incomes : list IncomeEntry) (d : date) : float :=
  fold_left (income_step d) incomes Float.zero.

Definition daily_scenario_cost (scenario : Scenario) : float :=
  fold_left
    (fun total act =>
       Float.add total
         (Float.div (Float.mul (cost act) (days_per_week act)) DAYS_PER_WEEK))
    (activities scenario) Float.zero.

(** The local variables of [simulate] that the loop updates. *)
Record loop_state : Type := mkLoop {
  ls_cash : float;
  ls_dates : list date;
  ls_balances : list float;
  ls_death_day : option date;
  ls_total_income : float
}.

Definition is_None {A : Type} (o : option A) : bool :=
  match o with None => true | Some _ => false end.

Section Simulate.

Variable start_date : date.
Variable incomes : list IncomeEntry.
Variables daily_fixed daily_var : float.

(** [sim_loop n i st] runs the iterations [i, i+1, ..., i+n-1] of
    [for i in range(max_days)] from the state [st]. *)
Fixpoint sim_loop (n : nat) (i : Z) (st : loop_state) : result loop_state :=
  match n with
  | O => Ok st
  | S n' =>
      d <- date_add_days start_date i ;;
      let dates' := ls_dates st ++ [d] in
      let balances' := ls_balances st ++ [ls_cash st] in
      if Float.leb (ls_cash st) Float.zero && is_None (ls_death_day st) then
        Ok (mkLoop (ls_cash st) dates' balances' (Some d) (ls_total_income st))
      else
        let inc := daily_income incomes d in
        let total_income := Float.add (ls_total_income st) inc in
        let cash :=
          Float.add (ls_cash st)
            (Float.sub (Float.sub inc daily_fixed) daily_var) in
        let cash := if Float.ltb cash Float.zero then Float.zero else cash in
        sim_loop n' (i + 1)
          (mkLoop cash dates' balances' (ls_death_day st) total_income)
  end.

End Simulate.

(** The local variables as initialised before the loop. *)
Definition initial_state (balance : float) : loop_state :=
  mkLoop balance [] [] None Float.zero.

Definition simulate (balance : float) (start_date : date)
    (incomes : list IncomeEntry) (fixed_monthly : float) (scenario : Scenario)
    (max_days : Z) : result SimResult :=
  let daily_fixed := Float.div fixed_monthly DAYS_PER_MONTH in
  let daily_var := daily_scenario_cost scenario in
  st <- sim_loop start_date incomes daily_fixed daily_var (Z.to_nat max_days) 0
          (initial_state balance) ;;
  let sim_days := len (ls_dates st) in
  Ok (mkSimResult
        (scn_name scenario)
        (ls_dates st)
        (ls_balances st)
        (ls_death_day st)
        (Float.add daily_fixed daily_var)
        (Float.mul (Float.add daily_fixed daily_var) DAYS_PER_MONTH)
        (if 0 <? sim_days then Float.div (ls_total_income st) (Float.of_Z sim_days)
         else Float.zero)).

(** ** Comparison of scenarios *)

(** A list comprehension whose element expression may raise. *)
Fixpoint map_result {A B : Type} (f : A -> result B) (l : list A) : result (list B) :=
  match l with
  | [] => Ok []
  | x :: l' =>
      y <- f x ;;
      ys <- map_result f l' ;;
      Ok (y :: ys)
  end.

(** [max(l)] on a non-empty list of integers. *)
Definition list_max (l : list Z) : Z :=
  match l with
  | [] => 0
  | x :: l' => fold_left Z.max l' x
  end.

(** The sort key [r.death_day or date.max]; a [date] object is always true. *)
Definition sort_key (r : SimResult) : date :=
  match death_day r with
  | Some d => d
  | None => date_max
  end.

(** [list.sort(key=...)] is a stable sort: elements are ordered by key, and
    elements with equal keys keep their relative order.  That arrangement is
    unique; it is computed here by insertion. *)
Section StableSort.

Context {A : Type}.
Variable key : A -> date.

Fixpoint insert_by (x : A) (l : list A) : list A :=
  match l with
  | [] => [x]
  | y :: l' =>
      if date_leb (key x) (key y) then x :: y :: l'
      else y :: insert_by x l'
  end.

Fixpoint sort_by (l : list A) : list A :=
  match l with
  | [] => []
  | x :: l' => insert_by x (sort_by l')
  end.

(** The order of the keys, read on elements. *)
Definition key_le (a b : A) : Prop := toordinal (key a) <= toordinal (key b).

End StableSort.

Definition death_lens (results : list SimResult) : list Z :=
  map (fun r => len (balances r))
      (filter (fun r => negb (is_None (death_day r))) results).

Definition chart_len (results : list SimResult) : Z :=
  match death_lens results with
  | [] => CHART_FALLBACK_DAYS
  | _ :: _ => list_max (death_lens results)
  end.

Definition _run_all_scenarios (balance : float) (start_date : date)
    (incomes : list IncomeEntry) (fixed : float) (scenarios : list Scenario)
    : result (list SimResult) :=
  results <- map_result
               (fun scn => simulate balance start_date incomes fixed scn MAX_DAYS_DEFAULT)
               scenarios ;;
  let results := map (fun r => truncated r (chart_len results)) results in
  Ok (sort_by sort_key results).

(** ** Auxiliary notions for the loop of [simulate] *)

Section LoopNotions.

Variable start_date : date.
Variable incomes : list IncomeEntry.
Variables daily_fixed daily_var : float.

(** The balance carried into the next iteration. *)
Definition next_cash (cash : float) (d : date) : float :=
  let cash' :=
    Float.add cash
      (Float.sub (Float.sub (daily_income incomes d) daily_fixed) daily_var) in
  if Float.ltb cash' Float.zero then Float.zero else cash'.

(** What one run of the loop appends to the two series. *)
Record appended (n : nat) (i : Z) (st st' : loop_state)
    (ds : list date) (bs : list float) : Prop := {
  app_dates : ls_dates st' = ls_dates st ++ ds;
  app_balances : ls_balances st' = ls_balances st ++ bs;
  app_length : List.length ds = List.length bs;
  app_bound : (List.length ds <= n)%nat;
  app_days : forall k d, nth_error ds k = Some d ->
               toordinal d = toordinal start_date + i + Z.of_nat k;
  app_first : forall v, hd_error bs = Some v -> v = ls_cash st;
  app_clamped : Forall (fun v => Float.ltb v Float.zero = false) (tl bs);
  app_nonempty : n <> O -> ds <> [];
  app_outcome :
    match ls_death_day st' with
    | None =>
        List.length ds = n /\
        Forall (fun v => Float.leb v Float.zero = false) bs
    | Some d =>
        exists ds0 bs0 b,
          ds = ds0 ++ [d] /\ bs = bs0 ++ [b] /\
          Float.leb b Float.zero = true /\
          Forall (fun v => Float.leb v Float.zero = false) bs0
    end
}.

End LoopNotions.

(** ** Evaluation with constant-time appends

    [sim_loop] appends to the end of its lists, which costs a traversal per
    recorded day.  For the evaluation of long runs the same loop is written
    with the lists kept newest first; [simulate_acc] reverses them at the end.
    Both are proved equal to the definitions above. *)

Definition rev_lists (st : loop_state) : loop_state :=
  mkLoop (ls_cash st) (rev_append (ls_dates st) []) (rev_append (ls_balances st) [])
    (ls_death_day st) (ls_total_income st).

Section SimulateAcc.

Variable start_date : date.
Variable incomes : list IncomeEntry.
Variables daily_fixed daily_var : float.

Fixpoint sim_loop_acc (n : nat) (i : Z) (st : loop_state) : result loop_state :=
  match n with
  | O => Ok st
  | S n' =>
      d <- date_add_days start_date i ;;
      let dates' := d :: ls_dates st in
      let balances' := ls_cash st :: ls_balances st in
      if Float.leb (ls_cash st) Float.zero && is_None (ls_death_day st) then
        Ok (mkLoop (ls_cash st) dates' balances' (Some d) (ls_total_income st))
      else
        let inc := daily_income incomes d in
        let total_income := Float.add (ls_total_income st) inc in
        let cash :=
          Float.add (ls_cash st)
            (Float.sub (Float.sub inc daily_fixed) daily_var) in
        let cash := if Float.ltb cash Float.zero then Float.zero else cash in
        sim_loop_acc n' (i + 1)
          (mkLoop cash dates' balances' (ls_death_day st) total_income)
  end.

End SimulateAcc.

Definition simulate_acc (balance : float) (start_date : date)
    (incomes : list IncomeEntry) (fixed_monthly : float) (scenario : Scenario)
    (max_days : Z) : result SimResult :=
  let daily_fixed := Float.div fixed_monthly DAYS_PER_MONTH in
  let daily_var := daily_scenario_cost scenario in
  st <- sim_loop_acc start_date incomes daily_fixed daily_var (Z.to_nat max_days) 0
          (initial_state balance) ;;
  let st := rev_lists st in
  let sim_days := len (ls_dates st) in
  Ok (mkSimResult
        (scn_name scenario)
        (ls_dates st)
        (ls_balances st)
        (ls_death_day st)
        (Float.add daily_fixed daily_var)
        (Float.mul (Float.add daily_fixed daily_var) DAYS_PER_MONTH)
        (if 0 <? sim_days then Float.div (ls_total_income st) (Float.of_Z sim_days)
         else Float.zero)).

Definition run_all_scenarios_acc (balance : float) (start_date : date)
    (incomes : list IncomeEntry) (fixed : float) (scenarios : list Scenario)
    : result (list SimResult) :=
  results <- map_result
               (fun scn => simulate_acc balance start_date incomes fixed scn MAX_DAYS_DEFAULT)
               scenarios ;;
  let results := map (fun r => truncated r (chart_len results)) results in
  Ok (sort_by sort_key results).

(** ** The income of a day, in the words of the documentation

    Every entry contributes an amount, which is [0.0] outside its period, for a
    one-off entry on any day but its first, and for an unrecognised frequency;
    the income of the day is the sum of the contributions, accumulated from
    [0.0] in the order of the entries. *)

Definition entry_income (d : date) (e : IncomeEntry) : float :=
  if date_ltb d (start e) then Float.zero
  else if match end_ e with
          | Some last => date_ltb last d
          | None => false
          end then Float.zero
  else if String.eqb (frequency e) "daily" then amount e
  else if String.eqb (frequency e) "weekly" then Float.div (amount e) (Float.of_Z 7)
  else if String.eqb (frequency e) "monthly" then Float.div (amount e) (Float.of_Z 30)
  else if String.eqb (frequency e) "once" then
    if date_eqb d (start e) then amount e else Float.zero
  else Float.zero.

Definition float_sum (l : list float) : float := fold_left Float.add l Float.zero.

Definition daily_income_spec (incomes : list IncomeEntry) (d : date) : float :=
  float_sum (map (entry_income d) incomes).

(** A value of [spec_float] that is a binary64 number. *)
Definition is_binary64 (x : float) : Prop :=
  valid_binary Float.prec Float.emax x = true.

(** The least exponent of a binary64 number. *)
Definition emin64 : Z := emin Float.prec Float.emax.

(** Finite values whose exponent is not below the least one. *)
Definition exponent_bounded (x : float) : Prop :=
  match x with
  | S754_finite _ _ e => emin64 <= e
  | _ => True
  end.

(** A running total: exponent bounded, and not the negative zero. *)
Definition total_ok (x : float) : Prop :=
  exponent_bounded x /\ x <> S754_zero true.

(** The shape of a comparison of two scenarios: names, death days as ordinals
    and series lengths, in output order. *)
Definition summary (res : result (list SimResult))
    : option (list (string * option Z * Z * Z)) :=
  match res with
  | Ok rs =>
      Some (map (fun r => (name r, option_map toordinal (death_day r),
                           len (dates r), len (balances r))) rs)
  | Raise _ => None
  end.

(** ** Sample inputs

    The examples of the documentation: a balance of 300000 on 2024-01-01 with
    150000 of monthly fixed costs and a scenario without activities. *)

Definition mkdate (z : Z) : date :=
  match fromordinal z with
  | Some d => d
  | None => date_max
  end.

Definition d_2024_01_01 : date := mkdate 738886.
Definition d_2024_01_15 : date := mkdate 738900.
Definition d_2024_03_01 : date := mkdate 738946.

Definition bare : Scenario := mkScenario "bare" [].

Definition balance_300000 : float := Float.of_Z 300000.
Definition fixed_150000 : float := Float.of_Z 150000.

(** [spender] costs 5000 a day and [saver] nothing. *)
Definition spender : Scenario :=
  mkScenario "spender" [mkActivity "outing" (Float.of_Z 5000) (Float.of_Z 7)].

Definition saver : Scenario := mkScenario "saver" [].

(** 9900-01-25, the day 36499 days before [date.max]. *)
Definition d_9900_01_25 : date := mkdate 3615560.

Definition gift_yearly : IncomeEntry :=
  mkIncomeEntry "gift" (Float.of_Z 10000) "yearly" d_2024_01_01 None.

Definition job_monthly : IncomeEntry :=
  mkIncomeEntry "job" (Float.of_Z 150000) "monthly" d_2024_01_01 None.

Definition bonus_once : IncomeEntry :=
  mkIncomeEntry "bonus" (Float.of_Z 10000) "once" d_2024_01_15 None.

(** [thrifty] costs 1 a day. *)
Definition thrifty : Scenario :=
  mkScenario "thrifty" [mkActivity "coffee" (Float.of_Z 1) (Float.of_Z 7)].

Definition balance_36499 : float := Float.of_Z 36499.

(** ** Further notions for the properties of the simulation *)

(** The running income total after the days [ds]. *)
Definition income_total (incomes : list IncomeEntry) (ds : list date) : float :=
  fold_left (fun total d => Float.add total (daily_income incomes d)) ds Float.zero.

(** The recorded days on which flows were applied: all of them, but for the
    death day, on which the loop stops before the flows. *)
Definition applied_days (r : SimResult) : list date :=
  match death_day r with
  | Some _ => removelast (dates r)
  | None => dates r
  end.

Section Recurrence.

Variable incomes : list IncomeEntry.
Variables daily_fixed daily_var : float.

(** Each recorded balance comes from the one before by the flows of its day. *)
Fixpoint follows (ds : list date) (bs : list float) : Prop :=
  match ds, bs with
  | d :: ds', b :: bs' =>
      match bs' with
      | b' :: _ => b' = next_cash incomes daily_fixed daily_var b d
      | [] => True
      end /\ follows ds' bs'
  | _, _ => True
  end.

End Recurrence.

(** ** Further notions for the income and cost models *)

(** The period test of [daily_income]: neither before the start of the entry
    nor after its end, when it has one. *)
Definition active (d : date) (e : IncomeEntry) : bool :=
  negb (date_ltb d (start e)) &&
  negb (match end_ e with
        | Some last => date_ltb last d
        | None => false
        end).

(** A zero or a finite number: neither an infinity nor NaN. *)
Definition float_is_finite (x : float) : bool :=
  match x with
  | S754_zero _ | S754_finite _ _ _ => true
  | _ => false
  end.

(** Values that carry the sign [s]; NaN carries none. *)
Definition has_sign (s : bool) (x : float) : Prop :=
  match x with
  | S754_zero s' | S754_infinity s' | S754_finite s' _ _ => s' = s
  | S754_nan => False
  end.

(** An entry whose period is empty: it ends before it starts. *)
Definition void_entry : IncomeEntry :=
  mkIncomeEntry "void" (Float.of_Z 10000) "daily" d_2024_01_15 (Some d_2024_01_01).

(** An activity that never takes place. *)
Definition idle : Activity := mkActivity "idle" (Float.of_Z 900) Float.zero.

(** ** Formatting of the death day

    [str(date)] and the format [.1f] of a float belong to the language; they
    are parameters here.  [str(int)] is the decimal notation. *)

Definition str_int (n : Z) : string := NilZero.string_of_int (Z.to_int n).

Section FormatDeathInfo.

Variable str_date : date -> string.
Variable format_1f : float -> string.

Definition format_death_info (death_day : option date) (start_date : date) : string :=
  match death_day with
  | None => "Survives"
  | Some death_day =>
      let days_left := toordinal death_day - toordinal start_date in
      let months_left := Float.div (Float.of_Z days_left) DAYS_PER_MONTH in
      str_date death_day ++ "  (" ++ str_int days_left ++ " days / " ++
      format_1f months_left ++ " months)"
  end%string.

End FormatDeathInfo.

(** ** The ticks of the balance axis

    The part of [_update_chart] that derives the ticks of the y axis from the
    plotted balances, which are integers. *)

(** [list(range(0, stop, step))] for a positive [step]. *)
Definition range_step (stop step : Z) : list Z :=
  map (fun i => Z.of_nat i * step) (seq 0 (Z.to_nat ((stop + step - 1) / step))).

Definition y_max_of (all_bals : list Z) : Z :=
  match all_bals with
  | [] => 0
  | _ :: _ => list_max all_bals
  end.

Definition tick_step (y_max : Z) : Z := Z.max 1000 (y_max / 5 / 1000 * 1000).

Definition tick_top (y_max : Z) : Z :=
  (y_max / tick_step y_max + 1) * tick_step y_max.

Definition y_ticks (all_bals : list Z) : list Z :=
  let y_max := y_max_of all_bals in
  let step := tick_step y_max in
  let top := tick_top y_max in
  range_step (top + 1) step.

(** Balances to plot. *)
Definition sample_bals : list Z := [300000; 295000; 0].

(** A start date on the last representable day. *)
Definition d_9999_12_31 : date := date_max.

(** 9900-01-26, the first day from which 36500 days pass [date.max]. *)
Definition d_9900_01_26 : date := mkdate 3615561.

(** * Properties *)

(** ** Dates *)

Lemma date_ext (a b : date) : toordinal a = toordinal b -> a = b.
Proof.
  destruct a as [x Hx], b as [y Hy]; simpl; intros E; subst y.
  f_equal. apply UIP_dec, bool_dec.
Qed.

Lemma fromordinal_inv z d : fromordinal z = Some d -> toordinal d = z.
Proof.
  unfold fromordinal. destruct (bool_dec _ _); intros E; inversion E; reflexivity.
Qed.

Lemma fromordinal_toordinal d : fromordinal (toordinal d) = Some d.
Proof.
  unfold fromordinal. destruct (bool_dec _ _) as [H | H].
  - f_equal. now apply date_ext.
  - now rewrite (date_ok d) in H.
Qed.

Lemma fromordinal_in_range z :
  MINORDINAL <= z <= MAXORDINAL -> exists d, fromordinal z = Some d.
Proof.
  intros Hz. unfold fromordinal. destruct (bool_dec _ _) as [H | H]; eauto.
  exfalso. apply H. unfold ordinal_in_range.
  apply andb_true_intro; split; apply Z.leb_le; lia.
Qed.

Lemma toordinal_range d : MINORDINAL <= toordinal d <= MAXORDINAL.
Proof.
  pose proof (date_ok d) as H. unfold ordinal_in_range in H.
  apply andb_prop in H as [H1 H2]. apply Z.leb_le in H1, H2. lia.
Qed.

Lemma date_add_days_inv d i d' :
  date_add_days d i = Ok d' -> toordinal d' = toordinal d + i.
Proof.
  unfold date_add_days. destruct (fromordinal _) eqn:E; intros H; inversion H; subst.
  now apply fromordinal_inv.
Qed.

Lemma date_add_days_0 d : date_add_days d 0 = Ok d.
Proof.
  unfold date_add_days. now rewrite Z.add_0_r, fromordinal_toordinal.
Qed.

Lemma date_add_days_in_range d i :
  0 <= i -> toordinal d + i <= MAXORDINAL -> exists d', date_add_days d i = Ok d'.
Proof.
  intros Hi Hmax. pose proof (toordinal_range d).
  destruct (fromordinal_in_range (toordinal d + i)) as [d' E]; [lia|].
  exists d'. unfold date_add_days. now rewrite E.
Qed.

(** ** The simulation loop *)

Section LoopFacts.

Variable start_date : date.
Variable incomes : list IncomeEntry.
Variables daily_fixed daily_var : float.

Lemma next_cash_not_negative cash d :
  Float.ltb (next_cash incomes daily_fixed daily_var cash d) Float.zero = false.
Proof.
  unfold next_cash.
  destruct (Float.ltb (Float.add _ _) Float.zero) eqn:E; [reflexivity | exact E].
Qed.

(** Unfolding of one iteration, for a loop that has not recorded a death day. *)
Lemma loop_step n i st :
  ls_death_day st = None ->
  sim_loop start_date incomes daily_fixed daily_var (S n) i st =
    d <- date_add_days start_date i ;;
    if Float.leb (ls_cash st) Float.zero then
      Ok (mkLoop (ls_cash st) (ls_dates st ++ [d]) (ls_balances st ++ [ls_cash st])
            (Some d) (ls_total_income st))
    else
      sim_loop start_date incomes daily_fixed daily_var n (i + 1)
        (mkLoop (next_cash incomes daily_fixed daily_var (ls_cash st) d) (ls_dates st ++ [d])
           (ls_balances st ++ [ls_cash st]) None
           (Float.add (ls_total_income st) (daily_income incomes d))).
Proof.
  intros Hd. simpl. rewrite Hd.
  destruct (date_add_days start_date i); simpl; [|reflexivity].
  now rewrite andb_true_r.
Qed.

Lemma loop_appended n : forall i st st',
  ls_death_day st = None ->
  sim_loop start_date incomes daily_fixed daily_var n i st = Ok st' ->
  exists ds bs, appended start_date n i st st' ds bs.
Proof.
  induction n as [|n IH]; intros i st st' Hd Hrun.
  - simpl in Hrun. inversion Hrun; subst st'.
    exists [], []. split; simpl; rewrite ?app_nil_r; auto.
    + intros [|k] d; discriminate.
    + discriminate.
    + rewrite Hd. auto.
  - rewrite loop_step in Hrun by assumption.
    destruct (date_add_days start_date i) as [d|e] eqn:Ed; simpl in Hrun;
      [|discriminate].
    apply date_add_days_inv in Ed.
    destruct (Float.leb (ls_cash st) Float.zero) eqn:Ec.
    + inversion Hrun; subst st'; simpl.
      exists [d], [ls_cash st]. split; simpl; auto.
      * lia.
      * intros [|[|k]] d' E; simpl in E; inversion E; subst. lia.
      * intros v E; now inversion E.
      * discriminate.
      * exists [], [], (ls_cash st). auto.
    + apply IH in Hrun; [|reflexivity].
      destruct Hrun as (ds & bs & [H1 H2 H3 H4 H5 H6 H7 H8 H9]). simpl in *.
      exists (d :: ds), (ls_cash st :: bs). split; simpl.
      * now rewrite H1, <- app_assoc.
      * now rewrite H2, <- app_assoc.
      * now rewrite H3.
      * lia.
      * intros [|k] d' E; simpl in E.
        -- inversion E; subst. lia.
        -- apply H5 in E. lia.
      * intros v E; now inversion E.
      * destruct bs as [|b bs]; simpl in *; auto.
        constructor; auto.
        rewrite (H6 b eq_refl). apply next_cash_not_negative.
      * discriminate.
      * destruct (ls_death_day st') as [dd|].
        -- destruct H9 as (ds0 & bs0 & b & -> & -> & Hb & Hbs).
           exists (d :: ds0), (ls_cash st :: bs0), b. repeat split; auto.
        -- destruct H9 as [Hl Hbs]. split; [now rewrite Hl | now constructor].
Qed.

(** The loop raises only when a simulated day passes [date.max]. *)
Lemma loop_returns n : forall i st,
  ls_death_day st = None ->
  0 <= i ->
  toordinal start_date + i + Z.of_nat n - 1 <= MAXORDINAL ->
  exists st', sim_loop start_date incomes daily_fixed daily_var n i st = Ok st'.
Proof.
  induction n as [|n IH]; intros i st Hd Hi Hmax.
  - exists st. reflexivity.
  - rewrite loop_step by assumption.
    destruct (date_add_days_in_range start_date i) as [d Ed]; [lia | lia |].
    rewrite Ed; simpl.
    destruct (Float.leb (ls_cash st) Float.zero); [eauto|].
    apply IH; simpl; auto; lia.
Qed.

End LoopFacts.

(** ** [simulate] *)

(** A returned result is read off the final loop state. *)
Lemma simulate_inv balance start_date incomes fixed_monthly scenario max_days r :
  simulate balance start_date incomes fixed_monthly scenario max_days = Ok r ->
  exists st',
    appended start_date (Z.to_nat max_days) 0 (initial_state balance) st'
      (dates r) (balances r) /\
    death_day r = ls_death_day st'.
Proof.
  unfold simulate. intros H.
  destruct (sim_loop _ _ _ _ _ _ _) as [st'|e] eqn:Hrun; simpl in H; [|discriminate].
  inversion H; subst r; clear H; simpl.
  apply loop_appended in Hrun; [|reflexivity].
  destruct Hrun as (ds & bs & Happ).
  exists st'. split; [|reflexivity].
  pose proof (app_dates _ _ _ _ _ _ _ Happ) as Hd.
  pose proof (app_balances _ _ _ _ _ _ _ Happ) as Hb.
  simpl in Hd, Hb. now rewrite Hd, Hb.
Qed.

Lemma simulate_returns balance start_date incomes fixed_monthly scenario max_days :
  toordinal start_date + max_days - 1 <= MAXORDINAL ->
  exists r, simulate balance start_date incomes fixed_monthly scenario max_days = Ok r.
Proof.
  intros Hmax. unfold simulate.
  destruct (loop_returns start_date incomes
              (Float.div fixed_monthly DAYS_PER_MONTH) (daily_scenario_cost scenario)
              (Z.to_nat max_days) 0 (initial_state balance))
    as [st' Hrun]; [reflexivity | lia | pose proof (toordinal_range start_date) as Hr;
                                         unfold MINORDINAL in Hr; lia |].
  rewrite Hrun; simpl. eauto.
Qed.

(** Comparison of a float with zero, on every value of [spec_float]. *)
Lemma not_ltb_zero v :
  Float.ltb v Float.zero = false ->
  v = S754_nan \/ Float.leb Float.zero v = true.
Proof.
  destruct v as [s|[|]| |[|] m e]; simpl; auto; discriminate.
Qed.

(** *** Death day *)

(** C1: when [simulate] returns a result with a death day, that day is the last
    recorded date, the balance recorded on it is [<= 0], and no balance recorded
    before it is [<= 0]; so it is the first date whose recorded balance is
    [<= 0], and nothing is recorded after it. *)
Theorem simulate_death_day_last_and_first
    balance start_date incomes fixed_monthly scenario max_days r d :
  simulate balance start_date incomes fixed_monthly scenario max_days = Ok r ->
  death_day r = Some d ->
  exists ds0 bs0 b,
    dates r = ds0 ++ [d] /\
    balances r = bs0 ++ [b] /\
    List.length ds0 = List.length bs0 /\
    Float.leb b Float.zero = true /\
    Forall (fun v => Float.leb v Float.zero = false) bs0.
Proof.
  intros Hsim Hdeath.
  apply simulate_inv in Hsim as (st' & Happ & Hdd).
  pose proof (app_outcome _ _ _ _ _ _ _ Happ) as Hout.
  pose proof (app_length _ _ _ _ _ _ _ Happ) as Hlen.
  rewrite <- Hdd, Hdeath in Hout.
  destruct Hout as (ds0 & bs0 & b & Hds & Hbs & Hb & Hall).
  exists ds0, bs0, b. repeat split; auto.
  rewrite Hds, Hbs, !length_app in Hlen. simpl in Hlen. lia.
Qed.

Lemma simulate_death_day_last_and_first_witness :
  exists r d,
    simulate balance_300000 d_2024_01_01 [] fixed_150000 bare MAX_DAYS_DEFAULT = Ok r /\
    death_day r = Some d /\
    toordinal d = toordinal d_2024_03_01 /\
    exists ds0 bs0 b,
      dates r = ds0 ++ [d] /\
      balances r = bs0 ++ [b] /\
      List.length ds0 = List.length bs0 /\
      Float.leb b Float.zero = true /\
      Forall (fun v => Float.leb v Float.zero = false) bs0.
Proof.
  eexists. eexists.
  split; [vm_compute; reflexivity|].
  split; [reflexivity|].
  split; [reflexivity|].
  apply (simulate_death_day_last_and_first
           balance_300000 d_2024_01_01 [] fixed_150000 bare MAX_DAYS_DEFAULT);
    [vm_compute|]; reflexivity.
Defined.

(** *** Shape of the series *)

(** C4 (amended): for [max_days >= 1], [simulate] returns whenever
    [start_date + (max_days - 1)] days does not pass [date.max], and every
    result it returns has two series of equal length, not empty, whose dates
    are the consecutive days [start_date, start_date + 1, ...]; for
    [max_days <= 0] it returns a result whose two series are empty. *)
Theorem simulate_series_consecutive_days
    balance start_date incomes fixed_monthly scenario max_days :
  (1 <= max_days ->
   (toordinal start_date + max_days - 1 <= MAXORDINAL ->
    exists r,
      simulate balance start_date incomes fixed_monthly scenario max_days = Ok r) /\
   (forall r,
      simulate balance start_date incomes fixed_monthly scenario max_days = Ok r ->
      List.length (dates r) = List.length (balances r) /\
      dates r <> [] /\
      hd_error (dates r) = Some start_date /\
      (forall k d, nth_error (dates r) k = Some d ->
                   date_add_days start_date (Z.of_nat k) = Ok d) /\
      (forall k d d', nth_error (dates r) k = Some d ->
                      nth_error (dates r) (S k) = Some d' ->
                      toordinal d' = toordinal d + 1 /\ date_ltb d d' = true))) /\
  (max_days <= 0 ->
   exists r,
     simulate balance start_date incomes fixed_monthly scenario max_days = Ok r /\
     dates r = [] /\ balances r = []).
Proof.
  split.
  - intros Hmax. split; [apply simulate_returns|].
    intros r Hsim.
    apply simulate_inv in Hsim as (st' & Happ & _).
    pose proof (app_days _ _ _ _ _ _ _ Happ) as Hdays.
    assert (Hne : dates r <> []) by (apply (app_nonempty _ _ _ _ _ _ _ Happ); lia).
    repeat split.
    + apply (app_length _ _ _ _ _ _ _ Happ).
    + exact Hne.
    + destruct (dates r) as [|d0 ds] eqn:E; [congruence|]. simpl. f_equal.
      apply date_ext. rewrite (Hdays 0%nat d0 eq_refl). simpl. lia.
    + intros k d Hk. apply Hdays in Hk. unfold date_add_days.
      replace (toordinal start_date + Z.of_nat k) with (toordinal d) by lia.
      now rewrite fromordinal_toordinal.
    + apply Hdays in H, H0. lia.
    + apply Hdays in H, H0. unfold date_ltb. apply Z.ltb_lt. lia.
  - intros Hmax. unfold simulate.
    replace (Z.to_nat max_days) with 0%nat by lia. simpl.
    eexists. split; [reflexivity|]. split; reflexivity.
Qed.

Lemma simulate_series_consecutive_days_witness :
  (1 <= MAX_DAYS_DEFAULT /\
   (toordinal d_2024_01_01 + MAX_DAYS_DEFAULT - 1 <= MAXORDINAL ->
    exists r,
      simulate balance_300000 d_2024_01_01 [] fixed_150000 bare MAX_DAYS_DEFAULT = Ok r) /\
   (forall r,
      simulate balance_300000 d_2024_01_01 [] fixed_150000 bare MAX_DAYS_DEFAULT = Ok r ->
      List.length (dates r) = List.length (balances r) /\
      dates r <> [] /\
      hd_error (dates r) = Some d_2024_01_01 /\
      (forall k d, nth_error (dates r) k = Some d ->
                   date_add_days d_2024_01_01 (Z.of_nat k) = Ok d) /\
      (forall k d d', nth_error (dates r) k = Some d ->
                      nth_error (dates r) (S k) = Some d' ->
                      toordinal d' = toordinal d + 1 /\ date_ltb d d' = true))) /\
  (-3 <= 0 /\
   exists r,
     simulate balance_300000 d_2024_01_01 [] fixed_150000 bare (-3) = Ok r /\
     dates r = [] /\ balances r = []).
Proof.
  split.
  - split; [unfold MAX_DAYS_DEFAULT; lia|].
    apply (proj1 (simulate_series_consecutive_days
                    balance_300000 d_2024_01_01 [] fixed_150000 bare MAX_DAYS_DEFAULT)).
    unfold MAX_DAYS_DEFAULT; lia.
  - split; [lia|].
    apply (proj2 (simulate_series_consecutive_days
                    balance_300000 d_2024_01_01 [] fixed_150000 bare (-3))).
    lia.
Defined.

(** With [max_days = 0] the loop body never runs and both series are empty. *)
Lemma simulate_zero_days_empty :
  exists r,
    simulate balance_300000 d_2024_01_01 [] fixed_150000 bare 0 = Ok r /\
    dates r = [] /\ balances r = [].
Proof.
  eexists. split; [vm_compute; reflexivity|]. split; reflexivity.
Qed.

(** A simulated day after [date.max] makes [simulate] raise. *)
Lemma simulate_past_date_max :
  simulate balance_300000 date_max [] fixed_150000 bare 2 = Raise OverflowError.
Proof. vm_compute. reflexivity. Qed.

(** *** Recorded balances *)

(** C5 (amended): the first recorded balance is the initial balance as given;
    every balance recorded after it is not negative: it is [>= 0], or NaN. *)
Theorem simulate_balances_clamped
    balance start_date incomes fixed_monthly scenario max_days r :
  simulate balance start_date incomes fixed_monthly scenario max_days = Ok r ->
  (forall v, hd_error (balances r) = Some v -> v = balance) /\
  Forall (fun v => Float.ltb v Float.zero = false /\
                   (v = S754_nan \/ Float.leb Float.zero v = true))
         (tl (balances r)).
Proof.
  intros Hsim. apply simulate_inv in Hsim as (st' & Happ & _). split.
  - apply (app_first _ _ _ _ _ _ _ Happ).
  - pose proof (app_clamped _ _ _ _ _ _ _ Happ) as Hc.
    eapply Forall_impl; [|exact Hc]. simpl. intros v Hv. split; [exact Hv|].
    now apply not_ltb_zero.
Qed.

Lemma simulate_balances_clamped_witness :
  exists r,
    simulate balance_300000 d_2024_01_01 [] fixed_150000 bare MAX_DAYS_DEFAULT = Ok r /\
    (forall v, hd_error (balances r) = Some v -> v = balance_300000) /\
    Forall (fun v => Float.ltb v Float.zero = false /\
                     (v = S754_nan \/ Float.leb Float.zero v = true))
           (tl (balances r)).
Proof.
  eexists. split; [vm_compute; reflexivity|].
  apply (simulate_balances_clamped
           balance_300000 d_2024_01_01 [] fixed_150000 bare MAX_DAYS_DEFAULT).
  vm_compute. reflexivity.
Defined.

(** A negative initial balance is recorded as it is. *)
Lemma simulate_negative_balance_recorded :
  exists r,
    simulate (Float.of_Z (-5)) d_2024_01_01 [] fixed_150000 bare MAX_DAYS_DEFAULT = Ok r /\
    balances r = [Float.of_Z (-5)] /\
    Float.leb Float.zero (Float.of_Z (-5)) = false /\
    Float.ltb (Float.of_Z (-5)) Float.zero = true.
Proof.
  eexists. split; [vm_compute; reflexivity|]. repeat split.
Qed.

(** *** Length of a surviving run *)

(** C6 (amended): a returned result without death day has series of length
    [max(max_days, 0)], that is [max_days] whenever [max_days >= 0]. *)
Theorem simulate_survivor_length
    balance start_date incomes fixed_monthly scenario max_days r :
  simulate balance start_date incomes fixed_monthly scenario max_days = Ok r ->
  death_day r = None ->
  len (dates r) = Z.max max_days 0 /\ len (balances r) = Z.max max_days 0.
Proof.
  intros Hsim Hnone. apply simulate_inv in Hsim as (st' & Happ & Hdd).
  pose proof (app_outcome _ _ _ _ _ _ _ Happ) as Hout.
  pose proof (app_length _ _ _ _ _ _ _ Happ) as Hlen.
  rewrite <- Hdd, Hnone in Hout. destruct Hout as [Hn _].
  unfold len. rewrite <- Hlen, Hn. lia.
Qed.

Lemma simulate_survivor_length_witness :
  exists r,
    simulate balance_300000 d_2024_01_01 [] fixed_150000 bare 3 = Ok r /\
    death_day r = None /\
    len (dates r) = Z.max 3 0 /\ len (balances r) = Z.max 3 0.
Proof.
  eexists. split; [vm_compute; reflexivity|]. split; [reflexivity|].
  apply (simulate_survivor_length balance_300000 d_2024_01_01 [] fixed_150000 bare 3);
    [vm_compute|]; reflexivity.
Defined.

(** A negative [max_days] gives an empty range: no death day, and length 0. *)
Lemma simulate_negative_max_days :
  exists r,
    simulate balance_300000 d_2024_01_01 [] fixed_150000 bare (-1) = Ok r /\
    death_day r = None /\
    len (dates r) = 0 /\ len (dates r) <> -1.
Proof.
  eexists. split; [vm_compute; reflexivity|]. repeat split. discriminate.
Qed.

(** *** Starting without money *)

(** C10: with an initial balance [<= 0] and [max_days >= 1] the run stops on
    the first day: one recorded day, [start_date], which is the death day; the
    recorded balance is the initial one, unclamped; no income was accrued, and
    the average daily income is [0.0]. *)
Theorem simulate_broke_at_start
    balance start_date incomes fixed_monthly scenario max_days :
  Float.leb balance Float.zero = true ->
  1 <= max_days ->
  exists r,
    simulate balance start_date incomes fixed_monthly scenario max_days = Ok r /\
    dates r = [start_date] /\
    balances r = [balance] /\
    death_day r = Some start_date /\
    daily_income_avg r = Float.zero.
Proof.
  intros Hb Hm. unfold simulate.
  destruct (Z.to_nat max_days) as [|n] eqn:En; [lia|].
  rewrite loop_step by reflexivity.
  rewrite date_add_days_0. simpl. rewrite Hb. simpl.
  eexists. split; [reflexivity|]. simpl. repeat split.
Qed.

Lemma simulate_broke_at_start_witness :
  Float.leb (Float.of_Z (-5)) Float.zero = true /\
  1 <= MAX_DAYS_DEFAULT /\
  exists r,
    simulate (Float.of_Z (-5)) d_2024_01_01 [] fixed_150000 bare MAX_DAYS_DEFAULT = Ok r /\
    dates r = [d_2024_01_01] /\
    balances r = [Float.of_Z (-5)] /\
    death_day r = Some d_2024_01_01 /\
    daily_income_avg r = Float.zero.
Proof.
  split; [reflexivity|]. split; [unfold MAX_DAYS_DEFAULT; lia|].
  apply simulate_broke_at_start; [reflexivity | unfold MAX_DAYS_DEFAULT; lia].
Defined.

(** ** Truncation *)

Lemma slice_to_nonneg {A : Type} (l : list A) (n : Z) :
  0 <= n -> slice_to l n = firstn (Z.to_nat n) l.
Proof.
  intros Hn. unfold slice_to. destruct (n <? 0) eqn:E; [|reflexivity].
  apply Z.ltb_lt in E. lia.
Qed.

Lemma slice_to_of_nat {A : Type} (l : list A) (n : nat) :
  slice_to l (Z.of_nat n) = firstn n l.
Proof. rewrite slice_to_nonneg by lia. now rewrite Nat2Z.id. Qed.

(** [l[:n]] is a prefix of [l] for every integer [n]. *)
Lemma slice_to_prefix {A : Type} (l : list A) (n : Z) :
  exists rest, l = slice_to l n ++ rest.
Proof.
  unfold slice_to. destruct (n <? 0);
    eexists; symmetry; apply firstn_skipn.
Qed.

(** C9: [truncated] keeps the first [n] dates and the first [n] balances and
    copies every scalar field. *)
Theorem truncated_prefix (r : SimResult) (n : nat) :
  dates (truncated r (Z.of_nat n)) = firstn n (dates r) /\
  balances (truncated r (Z.of_nat n)) = firstn n (balances r) /\
  name (truncated r (Z.of_nat n)) = name r /\
  death_day (truncated r (Z.of_nat n)) = death_day r /\
  daily_burn (truncated r (Z.of_nat n)) = daily_burn r /\
  monthly_burn (truncated r (Z.of_nat n)) = monthly_burn r /\
  daily_income_avg (truncated r (Z.of_nat n)) = daily_income_avg r.
Proof.
  unfold truncated; simpl. rewrite !slice_to_of_nat. repeat split.
Qed.

(** For a negative length the slices drop elements from the end; the scalar
    fields are copied all the same. *)
Lemma truncated_any_length (r : SimResult) (n : Z) :
  (exists ds, dates r = dates (truncated r n) ++ ds) /\
  (exists bs, balances r = balances (truncated r n) ++ bs) /\
  name (truncated r n) = name r /\
  death_day (truncated r n) = death_day r /\
  daily_burn (truncated r n) = daily_burn r /\
  monthly_burn (truncated r n) = monthly_burn r /\
  daily_income_avg (truncated r n) = daily_income_avg r.
Proof.
  unfold truncated; simpl. repeat split; apply slice_to_prefix.
Qed.

(** ** Unrecognised frequencies *)

(** C8: [daily_income] is a total function, and an entry whose frequency is
    none of daily, weekly, monthly, once leaves the running total as it is: the
    result is the one obtained without that entry. *)
Theorem daily_income_unknown_frequency
    (before after : list IncomeEntry) (e : IncomeEntry) (d : date) :
  frequency e <> "daily"%string ->
  frequency e <> "weekly"%string ->
  frequency e <> "monthly"%string ->
  frequency e <> "once"%string ->
  (forall total, income_step d total e = total) /\
  daily_income (before ++ e :: after) d = daily_income (before ++ after) d.
Proof.
  intros Hd Hw Hm Ho.
  assert (Hstep : forall total, income_step d total e = total).
  { intros total. unfold income_step.
    apply String.eqb_neq in Hd, Hw, Hm, Ho. rewrite Hd, Hw, Hm, Ho.
    destruct (date_ltb d (start e)); [reflexivity|].
    destruct (end_ e) as [e'|]; [destruct (date_ltb e' d)|]; reflexivity. }
  split; [exact Hstep|].
  unfold daily_income. rewrite !fold_left_app. simpl. now rewrite Hstep.
Qed.

Lemma daily_income_unknown_frequency_witness :
  (forall total, income_step d_2024_01_15 total gift_yearly = total) /\
  daily_income ([job_monthly] ++ gift_yearly :: [bonus_once]) d_2024_01_15 =
  daily_income ([job_monthly] ++ [bonus_once]) d_2024_01_15.
Proof.
  apply daily_income_unknown_frequency; discriminate.
Defined.

(** ** Evaluation with constant-time appends *)

Lemma sim_loop_acc_correct start_date incomes daily_fixed daily_var n :
  forall i st,
    sim_loop start_date incomes daily_fixed daily_var n i (rev_lists st) =
    st' <- sim_loop_acc start_date incomes daily_fixed daily_var n i st ;;
    Ok (rev_lists st').
Proof.
  induction n as [|n IH]; intros i st; simpl; [reflexivity|].
  destruct (date_add_days start_date i) as [d|e]; simpl; [|reflexivity].
  destruct (Float.leb (ls_cash st) Float.zero && is_None (ls_death_day st)).
  - unfold rev_lists; simpl. now rewrite !rev_append_rev, !app_nil_r.
  - rewrite <- IH. unfold rev_lists; simpl.
    now rewrite !rev_append_rev, !app_nil_r.
Qed.

Lemma simulate_acc_correct balance start_date incomes fixed_monthly scenario max_days :
  simulate balance start_date incomes fixed_monthly scenario max_days =
  simulate_acc balance start_date incomes fixed_monthly scenario max_days.
Proof.
  unfold simulate, simulate_acc.
  change (initial_state balance) with (rev_lists (initial_state balance)) at 1.
  rewrite sim_loop_acc_correct.
  destruct (sim_loop_acc _ _ _ _ _ _ _); reflexivity.
Qed.

Lemma map_result_ext {A B : Type} (f g : A -> result B) (l : list A) :
  (forall x, f x = g x) -> map_result f l = map_result g l.
Proof.
  intros Hfg. induction l as [|x l IH]; simpl; [reflexivity|].
  now rewrite Hfg, IH.
Qed.

Lemma run_all_scenarios_acc_correct balance start_date incomes fixed scenarios :
  _run_all_scenarios balance start_date incomes fixed scenarios =
  run_all_scenarios_acc balance start_date incomes fixed scenarios.
Proof.
  unfold _run_all_scenarios, run_all_scenarios_acc.
  erewrite map_result_ext; [reflexivity|].
  intros scn. apply simulate_acc_correct.
Qed.

(** ** Comparison of scenarios *)

Lemma map_result_Forall2 {A B : Type} (f : A -> result B) (l : list A) :
  forall l', map_result f l = Ok l' -> Forall2 (fun x y => f x = Ok y) l l'.
Proof.
  induction l as [|x l IH]; simpl; intros l' H.
  - inversion H. constructor.
  - destruct (f x) as [y|] eqn:Ef; simpl in H; [|discriminate].
    destruct (map_result f l) as [ys|]; simpl in H; [|discriminate].
    inversion H; subst. constructor; auto.
Qed.

Lemma fold_left_max_ge (l : list Z) : forall x, x <= fold_left Z.max l x.
Proof.
  induction l as [|y l IH]; simpl; intros x; [lia|].
  specialize (IH (Z.max x y)). lia.
Qed.

Lemma fold_left_max_upper (l : list Z) :
  forall x y, In y l -> y <= fold_left Z.max l x.
Proof.
  induction l as [|z l IH]; simpl; intros x y Hy; [contradiction|].
  destruct Hy as [->|Hy]; [|now apply IH].
  pose proof (fold_left_max_ge l (Z.max x y)). lia.
Qed.

Lemma fold_left_max_In (l : list Z) :
  forall x, fold_left Z.max l x = x \/ In (fold_left Z.max l x) l.
Proof.
  induction l as [|z l IH]; simpl; intros x; [now left|].
  destruct (IH (Z.max x z)) as [E|Hin]; [|now right; right].
  rewrite E. destruct (Z.max_spec x z) as [[_ ->]|[_ ->]]; auto.
Qed.

(** [max(l)] is an element of a non-empty [l] and bounds every element. *)
Lemma list_max_spec (l : list Z) :
  l <> [] -> In (list_max l) l /\ forall y, In y l -> y <= list_max l.
Proof.
  destruct l as [|x l]; [congruence|]. intros _. simpl. split.
  - destruct (fold_left_max_In l x) as [->|H]; auto.
  - intros y [<-|Hy]; [apply fold_left_max_ge | now apply fold_left_max_upper].
Qed.

Lemma in_death_lens (results : list SimResult) (n : Z) :
  In n (death_lens results) <->
  exists r, In r results /\ death_day r <> None /\ len (balances r) = n.
Proof.
  unfold death_lens. rewrite in_map_iff. split.
  - intros (r & <- & Hr). apply filter_In in Hr as [Hin Hd].
    exists r. repeat split; auto. destruct (death_day r); [discriminate|discriminate].
  - intros (r & Hin & Hd & <-). exists r. split; [reflexivity|].
    apply filter_In. split; [exact Hin|]. now destruct (death_day r).
Qed.

Lemma chart_len_nonneg (results : list SimResult) : 0 <= chart_len results.
Proof.
  unfold chart_len. destruct (death_lens results) as [|x l] eqn:E.
  - unfold CHART_FALLBACK_DAYS. lia.
  - rewrite <- E.
    destruct (list_max_spec (death_lens results)) as [Hin _]; [congruence|].
    apply in_death_lens in Hin as (r & _ & _ & <-). unfold len. lia.
Qed.

Section StableSortFacts.

Context {A : Type}.
Variable key : A -> date.

Lemma insert_by_perm (x : A) (l : list A) : Permutation (insert_by key x l) (x :: l).
Proof.
  induction l as [|y l IH]; simpl; [reflexivity|].
  destruct (date_leb (key x) (key y)); [reflexivity|].
  rewrite IH. apply perm_swap.
Qed.

Lemma sort_by_perm (l : list A) : Permutation (sort_by key l) l.
Proof.
  induction l as [|x l IH]; simpl; [reflexivity|].
  rewrite insert_by_perm. now constructor.
Qed.

Lemma insert_by_sorted (x : A) (l : list A) :
  StronglySorted (key_le key) l -> StronglySorted (key_le key) (insert_by key x l).
Proof.
  induction 1 as [|y l Hs IH Hall]; simpl.
  - repeat constructor.
  - unfold date_leb. destruct (toordinal (key x) <=? toordinal (key y)) eqn:E.
    + apply Z.leb_le in E. constructor; [now constructor|].
      constructor; [exact E|].
      eapply Forall_impl; [|exact Hall]. unfold key_le. intros z Hz. lia.
    + apply Z.leb_gt in E. constructor; [exact IH|].
      rewrite (insert_by_perm x l). constructor; [unfold key_le; lia | exact Hall].
  Qed.

Lemma sort_by_sorted (l : list A) : StronglySorted (key_le key) (sort_by key l).
Proof.
  induction l as [|x l IH]; simpl; [constructor | now apply insert_by_sorted].
Qed.

(** Stability: the elements of any one key appear in their input order. *)
Lemma insert_by_stable (p : Z) (x : A) (l : list A) :
  filter (fun a => toordinal (key a) =? p) (insert_by key x l) =
  filter (fun a => toordinal (key a) =? p) (x :: l).
Proof.
  induction l as [|y l IH]; [reflexivity|].
  cbn [insert_by]. unfold date_leb.
  destruct (toordinal (key x) <=? toordinal (key y)) eqn:E; [reflexivity|].
  apply Z.leb_gt in E. cbn [filter] in *. rewrite IH.
  destruct (toordinal (key x) =? p) eqn:Ex, (toordinal (key y) =? p) eqn:Ey;
    try reflexivity.
  apply Z.eqb_eq in Ex, Ey. lia.
Qed.

Lemma sort_by_stable (p : Z) (l : list A) :
  filter (fun a => toordinal (key a) =? p) (sort_by key l) =
  filter (fun a => toordinal (key a) =? p) l.
Proof.
  induction l as [|x l IH]; [reflexivity|].
  cbn [sort_by]. rewrite insert_by_stable. cbn [filter]. now rewrite IH.
Qed.

End StableSortFacts.

Lemma map_result_returns {A B : Type} (f : A -> result B) (l : list A) :
  (forall x, exists y, f x = Ok y) -> exists l', map_result f l = Ok l'.
Proof.
  intros Hf. induction l as [|x l [l' IH]]; simpl; [now exists []|].
  destruct (Hf x) as [y ->]. rewrite IH. simpl. eauto.
Qed.

(** The comparator raises only when the default horizon passes [date.max]. *)
Lemma run_all_scenarios_returns balance start_date incomes fixed scenarios :
  toordinal start_date + MAX_DAYS_DEFAULT - 1 <= MAXORDINAL ->
  exists out, _run_all_scenarios balance start_date incomes fixed scenarios = Ok out.
Proof.
  intros Hmax. unfold _run_all_scenarios.
  destruct (map_result_returns
              (fun scn => simulate balance start_date incomes fixed scn MAX_DAYS_DEFAULT)
              scenarios) as [results ->].
  - intros scn. now apply simulate_returns.
  - simpl. eauto.
Qed.

(** C2 (amended): the comparator returns whenever [start_date + 36499] days
    does not pass [date.max]; and whenever it returns, it has simulated every
    scenario once, with the default horizon; [chart_len] is the largest series
    length among the results with a death day, or 3650 when there is none; and
    what it returns are those same results, each cut to its first [chart_len]
    dates and balances. *)
Theorem run_all_scenarios_chart_len balance start_date incomes fixed scenarios :
  (toordinal start_date + MAX_DAYS_DEFAULT - 1 <= MAXORDINAL ->
   exists out,
     _run_all_scenarios balance start_date incomes fixed scenarios = Ok out) /\
  forall out,
  _run_all_scenarios balance start_date incomes fixed scenarios = Ok out ->
  exists results,
    Forall2 (fun scn r =>
               simulate balance start_date incomes fixed scn MAX_DAYS_DEFAULT = Ok r)
            scenarios results /\
    Permutation out (map (fun r => truncated r (chart_len results)) results) /\
    0 <= chart_len results /\
    (forall r, In r results ->
       dates (truncated r (chart_len results)) =
         firstn (Z.to_nat (chart_len results)) (dates r) /\
       balances (truncated r (chart_len results)) =
         firstn (Z.to_nat (chart_len results)) (balances r)) /\
    ((forall r, In r results -> death_day r = None) ->
       chart_len results = CHART_FALLBACK_DAYS) /\
    ((exists r, In r results /\ death_day r <> None) ->
       (exists r, In r results /\ death_day r <> None /\
                  len (balances r) = chart_len results) /\
       (forall r, In r results -> death_day r <> None ->
                  len (balances r) <= chart_len results)).
Proof.
  split; [apply run_all_scenarios_returns|].
  unfold _run_all_scenarios. intros out H.
  destruct (map_result _ scenarios) as [results|e] eqn:Hres; simpl in H; [|discriminate].
  inversion H; subst out; clear H.
  exists results. split; [now apply map_result_Forall2|].
  split; [apply sort_by_perm|].
  pose proof (chart_len_nonneg results) as Hnn.
  split; [exact Hnn|]. split; [|split].
  - intros r _. unfold truncated; simpl. now rewrite !slice_to_nonneg.
  - intros Hnone. unfold chart_len.
    destruct (death_lens results) as [|x l] eqn:E; [reflexivity|].
    assert (Hin : In x (death_lens results)) by (rewrite E; now left).
    apply in_death_lens in Hin as (r & Hr & Hd & _). now apply Hnone in Hr.
  - intros (r & Hr & Hd).
    assert (Hin : In (len (balances r)) (death_lens results))
      by (apply in_death_lens; eauto).
    unfold chart_len. destruct (death_lens results) as [|x l] eqn:E; [contradiction|].
    rewrite <- E in *.
    destruct (list_max_spec (death_lens results)) as [Hmax Hub]; [congruence|].
    split.
    + now apply in_death_lens in Hmax.
    + intros r' Hr' Hd'. apply Hub. apply in_death_lens; eauto.
Qed.

Lemma run_all_scenarios_chart_len_witness :
  toordinal d_2024_01_01 + MAX_DAYS_DEFAULT - 1 <= MAXORDINAL /\
  exists out,
    _run_all_scenarios balance_300000 d_2024_01_01 [] Float.zero [spender; saver] = Ok out /\
    summary (Ok out) =
      Some [("spender"%string, Some 738946, 61, 61); ("saver"%string, None, 61, 61)] /\
    exists results,
      Forall2 (fun scn r =>
                 simulate balance_300000 d_2024_01_01 [] Float.zero scn MAX_DAYS_DEFAULT = Ok r)
              [spender; saver] results /\
      Permutation out (map (fun r => truncated r (chart_len results)) results) /\
      0 <= chart_len results /\
      (forall r, In r results ->
         dates (truncated r (chart_len results)) =
           firstn (Z.to_nat (chart_len results)) (dates r) /\
         balances (truncated r (chart_len results)) =
           firstn (Z.to_nat (chart_len results)) (balances r)) /\
      ((forall r, In r results -> death_day r = None) ->
         chart_len results = CHART_FALLBACK_DAYS) /\
      ((exists r, In r results /\ death_day r <> None) ->
         (exists r, In r results /\ death_day r <> None /\
                    len (balances r) = chart_len results) /\
         (forall r, In r results -> death_day r <> None ->
                    len (balances r) <= chart_len results)).
Proof.
  split; [vm_compute; discriminate|].
  eexists. split.
  - rewrite run_all_scenarios_acc_correct. vm_compute. reflexivity.
  - split; [reflexivity|].
    apply (proj2 (run_all_scenarios_chart_len
                    balance_300000 d_2024_01_01 [] Float.zero [spender; saver])).
    rewrite run_all_scenarios_acc_correct. vm_compute. reflexivity.
Defined.

(** From 9900-01-26 on, the default horizon passes [date.max]: the run of the
    surviving scenario raises, and the comparison with it. *)
Lemma run_all_scenarios_overflow :
  toordinal d_9900_01_26 + MAX_DAYS_DEFAULT - 1 = MAXORDINAL + 1 /\
  _run_all_scenarios balance_300000 d_9900_01_26 [] Float.zero [spender; saver]
    = Raise OverflowError.
Proof.
  split; [reflexivity|].
  rewrite run_all_scenarios_acc_correct. vm_compute. reflexivity.
Qed.

(** The example of the documentation: one scenario depletes on day 60, the
    other survives the horizon; the chart length is 61. *)
Example chart_len_spender_saver :
  exists results,
    map_result
      (fun scn => simulate balance_300000 d_2024_01_01 [] Float.zero scn MAX_DAYS_DEFAULT)
      [spender; saver] = Ok results /\
    map (fun r => (name r, len (balances r), is_None (death_day r))) results =
      [("spender"%string, 61, false); ("saver"%string, 36500, true)] /\
    chart_len results = 61.
Proof.
  rewrite (map_result_ext _
             (fun scn => simulate_acc balance_300000 d_2024_01_01 [] Float.zero scn
                           MAX_DAYS_DEFAULT))
    by (intros scn; apply simulate_acc_correct).
  assert (H :
    match map_result
            (fun scn => simulate_acc balance_300000 d_2024_01_01 [] Float.zero scn
                          MAX_DAYS_DEFAULT) [spender; saver] with
    | Ok results =>
        map (fun r => (name r, len (balances r), is_None (death_day r))) results =
          [("spender"%string, 61, false); ("saver"%string, 36500, true)] /\
        chart_len results = 61
    | Raise _ => False
    end) by (vm_compute; split; reflexivity).
  destruct (map_result _ _) as [results|]; [|contradiction].
  exists results. split; [reflexivity | exact H].
Qed.

(** *** Order of the results *)

Lemma run_all_scenarios_sorted balance start_date incomes fixed scenarios out :
  _run_all_scenarios balance start_date incomes fixed scenarios = Ok out ->
  StronglySorted (key_le sort_key) out.
Proof.
  unfold _run_all_scenarios. intros H.
  destruct (map_result _ scenarios) as [results|e]; simpl in H; [|discriminate].
  inversion H. apply sort_by_sorted.
Qed.

(** X18: results with the same sort key (the same death day; or no death day,
    together with those that died on [date.max]) come out in the order of their
    scenarios. *)
Lemma run_all_scenarios_stable balance start_date incomes fixed scenarios out :
  _run_all_scenarios balance start_date incomes fixed scenarios = Ok out ->
  exists results,
    map_result
      (fun scn => simulate balance start_date incomes fixed scn MAX_DAYS_DEFAULT)
      scenarios = Ok results /\
    forall p,
      filter (fun r => toordinal (sort_key r) =? p) out =
      filter (fun r => toordinal (sort_key r) =? p)
             (map (fun r => truncated r (chart_len results)) results).
Proof.
  unfold _run_all_scenarios. intros H.
  destruct (map_result _ scenarios) as [results|e]; simpl in H; [|discriminate].
  inversion H. exists results. split; [reflexivity|].
  intros p. apply sort_by_stable.
Qed.

(** A survivor comes out before a depleted scenario only if the latter died
    on [date.max], the value that stands for "never" in the sort key. *)
Lemma survivor_first_only_at_date_max
    balance start_date incomes fixed scenarios out l1 a l2 b l3 d :
  _run_all_scenarios balance start_date incomes fixed scenarios = Ok out ->
  out = l1 ++ a :: l2 ++ b :: l3 ->
  death_day a = None ->
  death_day b = Some d ->
  d = date_max.
Proof.
  intros Hrun -> Ha Hb. apply run_all_scenarios_sorted in Hrun.
  assert (Hsuffix : forall l l' : list SimResult,
             StronglySorted (key_le sort_key) (l ++ l') ->
             StronglySorted (key_le sort_key) l').
  { induction l as [|x l IH]; simpl; intros l' Hs; [exact Hs|].
    apply StronglySorted_inv in Hs as [Hs _]. now apply IH. }
  apply Hsuffix in Hrun.
  apply StronglySorted_inv in Hrun as [_ Hall].
  rewrite Forall_forall in Hall.
  assert (Hle : key_le sort_key a b) by (apply Hall, in_or_app; right; now left).
  unfold key_le, sort_key in Hle. rewrite Ha, Hb in Hle. simpl in Hle.
  apply date_ext. pose proof (toordinal_range d). simpl. lia.
Qed.

(** C3, at the input where it fails: 36499 in cash on 9900-01-25, no fixed
    costs, scenarios [saver; thrifty].  [thrifty] is depleted on the last day
    of the horizon, which is [date.max]; [saver] survives.  Both have the sort
    key [date.max], and the stable sort leaves the survivor first. *)
Theorem survivor_sorted_before_death_at_date_max :
  summary (_run_all_scenarios balance_36499 d_9900_01_25 [] Float.zero [saver; thrifty]) =
  Some [("saver"%string, None, 36500, 36500);
        ("thrifty"%string, Some MAXORDINAL, 36500, 36500)].
Proof.
  rewrite run_all_scenarios_acc_correct. vm_compute. reflexivity.
Qed.

(** ** Floating point sums *)

Lemma digits2_pos_lower (m : positive) :
  2 ^ (Z.pos (digits2_pos m) - 1) <= Z.pos m.
Proof.
  induction m as [m IH|m IH|]; simpl digits2_pos.
  - rewrite Pos2Z.inj_succ.
    replace (Z.succ (Z.pos (digits2_pos m)) - 1)
      with (Z.succ (Z.pos (digits2_pos m) - 1)) by lia.
    rewrite Z.pow_succ_r by lia. lia.
  - rewrite Pos2Z.inj_succ.
    replace (Z.succ (Z.pos (digits2_pos m)) - 1)
      with (Z.succ (Z.pos (digits2_pos m) - 1)) by lia.
    rewrite Z.pow_succ_r by lia. lia.
  - simpl. lia.
Qed.

Lemma shr_1_mantissa (mrs : shr_record) :
  0 <= shr_m mrs -> shr_m (shr_1 mrs) = shr_m mrs / 2.
Proof.
  destruct mrs as [m r s]; simpl. intros Hm.
  destruct m as [|[q|q|]|q]; cbn [shr_m]; try lia; try reflexivity.
  - apply Z.div_unique with (r := 1); lia.
  - apply Z.div_unique with (r := 0); lia.
Qed.

Lemma pow2_xO (p : positive) : 2 ^ Z.pos p~0 = 2 ^ Z.pos p * 2 ^ Z.pos p.
Proof.
  replace (Z.pos p~0) with (Z.pos p + Z.pos p) by lia.
  apply Z.pow_add_r; lia.
Qed.

Lemma pow2_xI (p : positive) : 2 ^ Z.pos p~1 = 2 * (2 ^ Z.pos p * 2 ^ Z.pos p).
Proof.
  replace (Z.pos p~1) with (Z.succ (Z.pos p~0)) by lia.
  rewrite Z.pow_succ_r by lia. now rewrite pow2_xO.
Qed.

Lemma iter_shr_1_mantissa (p : positive) : forall mrs,
  0 <= shr_m mrs ->
  shr_m (iter_pos shr_1 p mrs) = shr_m mrs / 2 ^ Z.pos p.
Proof.
  assert (Hpow : forall q, 0 < 2 ^ Z.pos q) by (intros q; apply Z.pow_pos_nonneg; lia).
  induction p as [p IH|p IH|]; intros mrs Hm; simpl iter_pos.
  - assert (H1 : 0 <= shr_m (shr_1 mrs))
      by (rewrite shr_1_mantissa by lia; apply Z.div_pos; lia).
    assert (H2 : 0 <= shr_m (iter_pos shr_1 p (shr_1 mrs)))
      by (rewrite IH by lia; apply Z.div_pos; [lia | apply Hpow]).
    rewrite IH, IH, shr_1_mantissa by lia.
    pose proof (Hpow p).
    rewrite !Z.div_div by lia. now rewrite pow2_xI.
  - assert (H2 : 0 <= shr_m (iter_pos shr_1 p mrs))
      by (rewrite IH by lia; apply Z.div_pos; [lia | apply Hpow]).
    rewrite IH, IH by lia.
    pose proof (Hpow p).
    rewrite Z.div_div by lia. now rewrite pow2_xO.
  - now apply shr_1_mantissa.
Qed.

(** Rounding a positive mantissa whose exponent is not below the least one
    keeps the mantissa positive. *)
Lemma shr_fexp_positive (m : positive) (e : Z) (l : location) :
  emin64 <= e ->
  0 < shr_m (fst (shr_fexp Float.prec Float.emax (Z.pos m) e l)) /\
  emin64 <= snd (shr_fexp Float.prec Float.emax (Z.pos m) e l).
Proof.
  unfold emin64, emin, Float.prec, Float.emax. intros He.
  unfold shr_fexp, fexp, emin, Zdigits2, shr.
  pose proof (digits2_pos_lower m) as Hd.
  set (D := Z.pos (digits2_pos m)) in *.
  assert (HD : 0 < D) by (unfold D; lia).
  destruct (Z.max (D + e - 53) (3 - 1024 - 53) - e) as [|p|p] eqn:En.
  - simpl. split; [destruct l as [|[]]; simpl; lia | lia].
  - assert (Hp : Z.pos p = D - 53) by lia.
    simpl fst; simpl snd. split; [|lia].
    rewrite iter_shr_1_mantissa by (destruct l as [|[]]; simpl; lia).
    replace (shr_m (shr_record_of_loc (Z.pos m) l)) with (Z.pos m)
      by (destruct l as [|[]]; reflexivity).
    apply Z.div_str_pos. split; [apply Z.pow_pos_nonneg; lia|].
    eapply Z.le_trans; [|exact Hd].
    apply Z.pow_le_mono_r; lia.
  - simpl. split; [destruct l as [|[]]; simpl; lia | lia].
Qed.

Lemma shr_fexp_exponent (m e : Z) (l : location) :
  emin64 <= snd (shr_fexp Float.prec Float.emax m e l).
Proof.
  unfold emin64, shr_fexp, shr, fexp, emin, Float.prec, Float.emax.
  destruct (Z.max (Zdigits2 m + e - 53) (3 - 1024 - 53) - e) eqn:En; simpl; lia.
Qed.

Lemma binary_round_aux_bounded (s : bool) (m e : Z) (l : location) :
  exponent_bounded (binary_round_aux Float.prec Float.emax s m e l).
Proof.
  unfold binary_round_aux.
  destruct (shr_fexp Float.prec Float.emax m e l) as [mrs' e'].
  pose proof (shr_fexp_exponent
                (round_nearest_even (shr_m mrs') (loc_of_shr_record mrs')) e' loc_Exact)
    as He.
  destruct (shr_fexp _ _ _ e' loc_Exact) as [mrs'' e'']. cbn [snd] in He.
  destruct (shr_m mrs''); [exact I | | exact I].
  destruct (e'' <=? Float.emax - Float.prec); [exact He | exact I].
Qed.

Lemma round_nearest_even_positive (m : Z) (l : location) :
  0 < m -> 0 < round_nearest_even m l.
Proof.
  intros Hm. destruct l as [|[]]; simpl; try lia.
  destruct (Z.even m); lia.
Qed.

Lemma binary_round_aux_total_ok (s : bool) (m : positive) (e : Z) (l : location) :
  emin64 <= e ->
  total_ok (binary_round_aux Float.prec Float.emax s (Z.pos m) e l).
Proof.
  intros He. split; [apply binary_round_aux_bounded|].
  unfold binary_round_aux.
  destruct (shr_fexp_positive m e l He) as [Hm1 He1].
  destruct (shr_fexp Float.prec Float.emax (Z.pos m) e l) as [mrs' e'].
  simpl in Hm1, He1.
  pose proof (round_nearest_even_positive _ (loc_of_shr_record mrs') Hm1) as Hm2.
  destruct (round_nearest_even (shr_m mrs') (loc_of_shr_record mrs')) as [|m2|m2];
    try lia.
  destruct (shr_fexp_positive m2 e' loc_Exact He1) as [Hm3 _].
  destruct (shr_fexp Float.prec Float.emax (Z.pos m2) e' loc_Exact) as [mrs'' e''].
  simpl in Hm3.
  destruct (shr_m mrs''); try lia.
  destruct (e'' <=? Float.emax - Float.prec); discriminate.
Qed.

Lemma binary_round_total_ok (s : bool) (m : positive) (e : Z) :
  emin64 <= e -> total_ok (binary_round Float.prec Float.emax s m e).
Proof.
  intros He. unfold binary_round, shl_align.
  pose proof (Z.le_max_r (Z.pos (digits2_pos m) + e - Float.prec) emin64) as Hf.
  fold (emin Float.prec Float.emax) in Hf.
  change (Z.max (Z.pos (digits2_pos m) + e - Float.prec) emin64)
    with (fexp Float.prec Float.emax (Z.pos (digits2_pos m) + e)) in Hf.
  destruct (fexp Float.prec Float.emax (Z.pos (digits2_pos m) + e) - e);
    now apply binary_round_aux_total_ok.
Qed.

Lemma binary_normalize_total_ok (m e : Z) :
  emin64 <= e -> total_ok (binary_normalize Float.prec Float.emax m e false).
Proof.
  intros He. destruct m as [|m|m]; simpl.
  - split; [exact I | discriminate].
  - now apply binary_round_total_ok.
  - now apply binary_round_total_ok.
Qed.

Lemma add_total_ok (x y : float) :
  total_ok x -> exponent_bounded y -> total_ok (Float.add x y).
Proof.
  intros [Hx Hnz] Hy.
  destruct x as [[|]|[|]| |sx mx ex], y as [[|]|[|]| |sy my ey];
    try (split; [exact I | discriminate]);
    try (split; [assumption | discriminate]);
    try congruence.
  unfold Float.add, SFadd. apply binary_normalize_total_ok.
  simpl in Hx, Hy. lia.
Qed.

Lemma add_zero_r (x : float) :
  x <> S754_zero true -> Float.add x Float.zero = x.
Proof.
  destruct x as [[|]|[|]| |s m e]; intros H; try reflexivity. congruence.
Qed.

Lemma div_bounded (x y : float) : exponent_bounded (Float.div x y).
Proof.
  destruct x as [sx|sx| |sx mx ex], y as [sy|sy| |sy my ey]; try exact I.
  unfold Float.div, SFdiv.
  destruct (SFdiv_core_binary _ _ _ _ _ _) as [[mz ez] lz].
  apply binary_round_aux_bounded.
Qed.

Lemma binary64_bounded (x : float) : is_binary64 x -> exponent_bounded x.
Proof.
  destruct x as [s|s| |s m e]; try (intros; exact I).
  unfold is_binary64, valid_binary, bounded, canonical_mantissa. intros H.
  apply andb_prop in H as [H _]. apply Z.eqb_eq in H.
  simpl. unfold emin64. unfold fexp in H. lia.
Qed.

(** ** [daily_income] *)

Lemma entry_income_bounded (d : date) (e : IncomeEntry) :
  is_binary64 (amount e) -> exponent_bounded (entry_income d e).
Proof.
  intros Hv. apply binary64_bounded in Hv. unfold entry_income.
  repeat match goal with
         | |- exponent_bounded (if ?c then _ else _) => destruct c
         end;
    try exact I; try exact Hv; apply div_bounded.
Qed.

(** The loop body adds the contribution of the entry to the running total. *)
Lemma income_step_adds (d : date) (total : float) (e : IncomeEntry) :
  total_ok total ->
  income_step d total e = Float.add total (entry_income d e).
Proof.
  intros [_ Hnz]. unfold income_step, entry_income.
  destruct (date_ltb d (start e)); [now rewrite add_zero_r|].
  destruct (match end_ e with Some last => date_ltb last d | None => false end);
    [now rewrite add_zero_r|].
  destruct (String.eqb (frequency e) "daily") eqn:Ed; [reflexivity|].
  destruct (String.eqb (frequency e) "monthly") eqn:Em.
  - apply String.eqb_eq in Em. rewrite Em. reflexivity.
  - destruct (String.eqb (frequency e) "weekly") eqn:Ew; [reflexivity|].
    destruct (String.eqb (frequency e) "once");
      [destruct (date_eqb d (start e))|]; now rewrite ?add_zero_r.
Qed.

Lemma daily_income_fold (d : date) (incomes : list IncomeEntry) :
  Forall (fun e => is_binary64 (amount e)) incomes ->
  forall total,
    total_ok total ->
    fold_left (income_step d) incomes total =
    fold_left Float.add (map (entry_income d) incomes) total.
Proof.
  induction 1 as [|e incomes He _ IH]; intros total Hok; simpl; [reflexivity|].
  rewrite income_step_adds by assumption.
  apply IH. apply add_total_ok; [assumption | now apply entry_income_bounded].
Qed.

(** C7: [daily_income] is the sum, accumulated from [0.0] in the order of the
    entries, of what each entry contributes: nothing before its start or after
    its end, else the amount (daily), the amount divided by 7 (weekly) or by
    30 (monthly), or the amount on the very day of its start (once); without
    entries it is [0.0]. *)
Theorem daily_income_is_sum (incomes : list IncomeEntry) (d : date) :
  Forall (fun e => is_binary64 (amount e)) incomes ->
  daily_income incomes d = daily_income_spec incomes d /\
  daily_income [] d = Float.zero.
Proof.
  intros Hv. split; [|reflexivity].
  unfold daily_income, daily_income_spec, float_sum.
  apply daily_income_fold; [exact Hv|].
  split; [exact I | discriminate].
Qed.

Lemma daily_income_is_sum_witness :
  Forall (fun e => is_binary64 (amount e)) [job_monthly; bonus_once; gift_yearly] /\
  daily_income [job_monthly; bonus_once; gift_yearly] d_2024_01_15 =
    daily_income_spec [job_monthly; bonus_once; gift_yearly] d_2024_01_15 /\
  daily_income [] d_2024_01_15 = Float.zero.
Proof.
  assert (H : Forall (fun e => is_binary64 (amount e))
                [job_monthly; bonus_once; gift_yearly])
    by (repeat constructor).
  split; [exact H|]. now apply daily_income_is_sum.
Defined.

(** The one-off entry of the documentation: 10000 on 2024-01-15, nothing on
    the day before and on the day after. *)
Example entry_income_once :
  entry_income d_2024_01_15 bonus_once = Float.of_Z 10000 /\
  entry_income (mkdate 738899) bonus_once = Float.zero /\
  entry_income (mkdate 738901) bonus_once = Float.zero /\
  daily_income [bonus_once] d_2024_01_15 = Float.of_Z 10000 /\
  daily_income [bonus_once] (mkdate 738899) = Float.zero /\
  daily_income [bonus_once] (mkdate 738901) = Float.zero.
Proof. repeat split. Qed.

(** The monthly income of the documentation balances the fixed costs, and the
    scenario survives the whole horizon. *)
Example simulate_monthly_income_survives :
  exists r,
    simulate balance_300000 d_2024_01_01 [job_monthly] fixed_150000 bare
      MAX_DAYS_DEFAULT = Ok r /\
    death_day r = None /\
    len (dates r) = MAX_DAYS_DEFAULT /\
    len (balances r) = MAX_DAYS_DEFAULT.
Proof.
  rewrite simulate_acc_correct.
  assert (H :
    match simulate_acc balance_300000 d_2024_01_01 [job_monthly] fixed_150000 bare
            MAX_DAYS_DEFAULT with
    | Ok r =>
        death_day r = None /\
        len (dates r) = MAX_DAYS_DEFAULT /\
        len (balances r) = MAX_DAYS_DEFAULT
    | Raise _ => False
    end) by (vm_compute; repeat split).
  destruct (simulate_acc _ _ _ _ _ _) as [r|]; [|contradiction].
  exists r. split; [reflexivity | exact H].
Qed.

(** * Further properties *)

(** ** The recurrence of the balance and the income total *)

Section LoopRecurrence.

Variable start_date : date.
Variable incomes : list IncomeEntry.
Variables daily_fixed daily_var : float.

Lemma loop_follows n : forall i st st',
  ls_death_day st = None ->
  sim_loop start_date incomes daily_fixed daily_var n i st = Ok st' ->
  exists ds bs,
    ls_dates st' = ls_dates st ++ ds /\
    ls_balances st' = ls_balances st ++ bs /\
    (forall v, hd_error bs = Some v -> v = ls_cash st) /\
    follows incomes daily_fixed daily_var ds bs /\
    (ls_death_day st' <> None -> ds <> []) /\
    ls_total_income st' =
      fold_left (fun total d => Float.add total (daily_income incomes d))
        (match ls_death_day st' with Some _ => removelast ds | None => ds end)
        (ls_total_income st).
Proof.
  induction n as [|n IH]; intros i st st' Hd Hrun.
  - simpl in Hrun. inversion Hrun; subst st'.
    exists [], []. rewrite !app_nil_r, Hd. repeat split; try discriminate.
    congruence.
  - rewrite loop_step in Hrun by assumption.
    destruct (date_add_days start_date i) as [d|e]; simpl in Hrun; [|discriminate].
    destruct (Float.leb (ls_cash st) Float.zero).
    + inversion Hrun; subst st'; simpl.
      exists [d], [ls_cash st]. repeat split; try discriminate.
      intros v E; now inversion E.
    + apply IH in Hrun; [|reflexivity].
      destruct Hrun as (ds & bs & H1 & H2 & H3 & H4 & H5 & H6). simpl in *.
      exists (d :: ds), (ls_cash st :: bs).
      split; [now rewrite H1, <- app_assoc|].
      split; [now rewrite H2, <- app_assoc|].
      split; [intros v E; now inversion E|].
      split; [|split; [discriminate|]].
      * simpl. split; [|exact H4].
        destruct bs as [|b bs]; [exact I|]. now apply H3.
      * rewrite H6. destruct (ls_death_day st') as [dd|]; [|reflexivity].
        destruct ds as [|d' ds]; [now destruct H5|reflexivity].
Qed.

End LoopRecurrence.

Lemma follows_nth incomes daily_fixed daily_var ds : forall bs k d b b',
  follows incomes daily_fixed daily_var ds bs ->
  nth_error ds k = Some d ->
  nth_error bs k = Some b ->
  nth_error bs (S k) = Some b' ->
  b' = next_cash incomes daily_fixed daily_var b d.
Proof.
  induction ds as [|d0 ds IH]; intros bs k d b b' Hf Hd Hb Hb'.
  - destruct k; discriminate.
  - destruct bs as [|b0 bs]; [destruct k; discriminate|].
    destruct Hf as [Hhead Hf]. destruct k as [|k]; simpl in *.
    + inversion Hd; inversion Hb; subst.
      destruct bs as [|b1 bs]; [discriminate|]. now inversion Hb'; subst.
    + eapply IH; eauto.
Qed.

(** X1: two consecutive recorded balances are related by the flows of the
    earlier day: the later one is the earlier one plus the income of that day
    minus the fixed and the scenario costs, replaced by [0.0] when negative. *)
Theorem simulate_balance_recurrence
    balance start_date incomes fixed_monthly scenario max_days r k d b b' :
  simulate balance start_date incomes fixed_monthly scenario max_days = Ok r ->
  nth_error (dates r) k = Some d ->
  nth_error (balances r) k = Some b ->
  nth_error (balances r) (S k) = Some b' ->
  b' = next_cash incomes (Float.div fixed_monthly DAYS_PER_MONTH)
         (daily_scenario_cost scenario) b d.
Proof.
  unfold simulate. intros H.
  destruct (sim_loop _ _ _ _ _ _ _) as [st'|e] eqn:Hrun; simpl in H; [|discriminate].
  inversion H; subst r; clear H; simpl.
  apply loop_follows in Hrun; [|reflexivity].
  destruct Hrun as (ds & bs & H1 & H2 & _ & Hf & _). simpl in H1, H2.
  rewrite H1, H2. now apply follows_nth.
Qed.

Lemma simulate_balance_recurrence_witness :
  exists r d b b',
    simulate balance_300000 d_2024_01_01 [job_monthly; bonus_once] fixed_150000 spender 20
      = Ok r /\
    nth_error (dates r) 14 = Some d /\
    nth_error (balances r) 14 = Some b /\
    nth_error (balances r) 15 = Some b' /\
    toordinal d = toordinal d_2024_01_15 /\
    b = Float.of_Z 230000 /\
    b' = Float.of_Z 235000 /\
    b' = next_cash [job_monthly; bonus_once] (Float.div fixed_150000 DAYS_PER_MONTH)
           (daily_scenario_cost spender) b d.
Proof.
  eexists. eexists. eexists. eexists.
  split; [vm_compute; reflexivity|].
  lazymatch goal with
  | |- nth_error (dates ?r) _ = _ /\ _ =>
      split; [reflexivity|]; split; [reflexivity|]; split; [reflexivity|];
      split; [reflexivity|]; split; [reflexivity|]; split; [reflexivity|];
      apply (simulate_balance_recurrence
               balance_300000 d_2024_01_01 [job_monthly; bonus_once] fixed_150000
               spender 20 r 14%nat);
      [vm_compute; reflexivity | reflexivity | reflexivity | reflexivity]
  end.
Defined.

(** X2: the average daily income of a result is the income accumulated over
    the days on which flows were applied (every recorded day but the death
    day), divided by the number of recorded days, the death day included. *)
Theorem simulate_income_average
    balance start_date incomes fixed_monthly scenario max_days r :
  simulate balance start_date incomes fixed_monthly scenario max_days = Ok r ->
  dates r <> [] ->
  daily_income_avg r =
    Float.div (income_total incomes (applied_days r)) (Float.of_Z (len (dates r))).
Proof.
  unfold simulate. intros H.
  destruct (sim_loop _ _ _ _ _ _ _) as [st'|e] eqn:Hrun; simpl in H; [|discriminate].
  inversion H; subst r; clear H; simpl. intros Hne.
  apply loop_follows in Hrun; [|reflexivity].
  destruct Hrun as (ds & bs & H1 & _ & _ & _ & _ & Htot). simpl in H1, Htot.
  unfold applied_days, income_total; simpl. rewrite Htot, H1.
  destruct (0 <? len ds) eqn:E; [reflexivity|].
  apply Z.ltb_ge in E. unfold len in E. rewrite H1 in Hne.
  destruct ds; [congruence | simpl in E; lia].
Qed.

Lemma simulate_income_average_witness :
  exists r,
    simulate balance_300000 d_2024_01_01 [job_monthly; bonus_once] fixed_150000 spender 20
      = Ok r /\
    dates r <> [] /\
    daily_income_avg r =
      Float.div (income_total [job_monthly; bonus_once] (applied_days r))
        (Float.of_Z (len (dates r))).
Proof.
  eexists. split; [vm_compute; reflexivity|].
  split; [discriminate|].
  apply (simulate_income_average
           balance_300000 d_2024_01_01 [job_monthly; bonus_once] fixed_150000 spender 20);
    [vm_compute; reflexivity | discriminate].
Defined.

(** ** The death day and the horizon *)

(** X3: the death day of a result is [start_date] plus the number of recorded
    days minus one: [(death_day - start_date).days == len(dates) - 1]. *)
Theorem simulate_death_day_offset
    balance start_date incomes fixed_monthly scenario max_days r d :
  simulate balance start_date incomes fixed_monthly scenario max_days = Ok r ->
  death_day r = Some d ->
  toordinal d - toordinal start_date = len (dates r) - 1 /\
  0 <= toordinal d - toordinal start_date < Z.max max_days 0.
Proof.
  intros Hsim Hdeath.
  apply simulate_inv in Hsim as (st' & Happ & Hdd).
  pose proof (app_outcome _ _ _ _ _ _ _ Happ) as Hout.
  pose proof (app_bound _ _ _ _ _ _ _ Happ) as Hbound.
  rewrite <- Hdd, Hdeath in Hout.
  destruct Hout as (ds0 & bs0 & b & Hds & _).
  assert (Hk : nth_error (dates r) (List.length ds0) = Some d).
  { rewrite Hds, nth_error_app2, Nat.sub_diag by lia. reflexivity. }
  apply (app_days _ _ _ _ _ _ _ Happ) in Hk.
  unfold len. rewrite Hds, length_app in *. simpl in *. lia.
Qed.

Lemma simulate_death_day_offset_witness :
  exists r d,
    simulate balance_300000 d_2024_01_01 [] fixed_150000 bare MAX_DAYS_DEFAULT = Ok r /\
    death_day r = Some d /\
    toordinal d - toordinal d_2024_01_01 = 60 /\
    toordinal d - toordinal d_2024_01_01 = len (dates r) - 1 /\
    0 <= toordinal d - toordinal d_2024_01_01 < Z.max MAX_DAYS_DEFAULT 0.
Proof.
  eexists. eexists.
  split; [vm_compute; reflexivity|].
  split; [reflexivity|].
  split; [reflexivity|].
  apply (simulate_death_day_offset
           balance_300000 d_2024_01_01 [] fixed_150000 bare MAX_DAYS_DEFAULT);
    [vm_compute|]; reflexivity.
Defined.

Section LoopHorizon.

Variable start_date : date.
Variable incomes : list IncomeEntry.
Variables daily_fixed daily_var : float.

(** A loop that stopped on a death day is not affected by further iterations. *)
Lemma loop_extend_dead n k : forall i st st',
  ls_death_day st = None ->
  sim_loop start_date incomes daily_fixed daily_var n i st = Ok st' ->
  ls_death_day st' <> None ->
  sim_loop start_date incomes daily_fixed daily_var (n + k) i st = Ok st'.
Proof.
  induction n as [|n IH]; intros i st st' Hd Hrun Hdead.
  - simpl in Hrun. inversion Hrun; subst. congruence.
  - change (S n + k)%nat with (S (n + k)).
    rewrite loop_step in Hrun |- * by assumption.
    destruct (date_add_days start_date i) as [d|e]; simpl in *; [|discriminate].
    destruct (Float.leb (ls_cash st) Float.zero); [exact Hrun|].
    now apply IH.
Qed.

(** A loop that ran all its iterations is continued by further ones. *)
Lemma loop_extend_alive n k : forall i st st',
  ls_death_day st = None ->
  sim_loop start_date incomes daily_fixed daily_var n i st = Ok st' ->
  ls_death_day st' = None ->
  sim_loop start_date incomes daily_fixed daily_var (n + k) i st =
  sim_loop start_date incomes daily_fixed daily_var k (i + Z.of_nat n) st'.
Proof.
  induction n as [|n IH]; intros i st st' Hd Hrun Halive.
  - simpl in Hrun. inversion Hrun; subst. simpl. now rewrite Z.add_0_r.
  - change (S n + k)%nat with (S (n + k)).
    rewrite loop_step in Hrun |- * by assumption.
    destruct (date_add_days start_date i) as [d|e]; simpl in *; [|discriminate].
    destruct (Float.leb (ls_cash st) Float.zero).
    + inversion Hrun; subst st'. discriminate.
    + rewrite (IH _ _ st'); [f_equal; lia | reflexivity | exact Hrun | exact Halive].
Qed.

End LoopHorizon.

(** X4: a run that ends on a death day does not depend on the horizon: with
    any larger [max_days], [simulate] returns the very same result. *)
Theorem simulate_horizon_after_death
    balance start_date incomes fixed_monthly scenario max_days max_days' r :
  simulate balance start_date incomes fixed_monthly scenario max_days = Ok r ->
  death_day r <> None ->
  max_days <= max_days' ->
  simulate balance start_date incomes fixed_monthly scenario max_days' = Ok r.
Proof.
  unfold simulate. intros H Hdead Hle.
  destruct (sim_loop _ _ _ _ (Z.to_nat max_days) _ _) as [st'|e] eqn:Hrun;
    simpl in H; [|discriminate].
  replace (Z.to_nat max_days')
    with (Z.to_nat max_days + (Z.to_nat max_days' - Z.to_nat max_days))%nat by lia.
  rewrite (loop_extend_dead _ _ _ _ _ _ _ _ st');
    [exact H | reflexivity | exact Hrun |].
  inversion H; subst r. exact Hdead.
Qed.

Lemma simulate_horizon_after_death_witness :
  exists r,
    simulate balance_300000 d_2024_01_01 [] fixed_150000 bare 61 = Ok r /\
    death_day r <> None /\
    61 <= MAX_DAYS_DEFAULT /\
    simulate balance_300000 d_2024_01_01 [] fixed_150000 bare MAX_DAYS_DEFAULT = Ok r.
Proof.
  eexists. split; [vm_compute; reflexivity|].
  split; [discriminate|]. split; [discriminate|].
  apply (simulate_horizon_after_death
           balance_300000 d_2024_01_01 [] fixed_150000 bare 61 MAX_DAYS_DEFAULT);
    [vm_compute; reflexivity | discriminate | discriminate].
Defined.

(** X5: a larger horizon only continues the series: the dates and balances
    obtained with [max_days] are a prefix of those obtained with a larger
    [max_days']. *)
Theorem simulate_horizon_prefix
    balance start_date incomes fixed_monthly scenario max_days max_days' r r' :
  simulate balance start_date incomes fixed_monthly scenario max_days = Ok r ->
  simulate balance start_date incomes fixed_monthly scenario max_days' = Ok r' ->
  max_days <= max_days' ->
  exists ds bs, dates r' = dates r ++ ds /\ balances r' = balances r ++ bs.
Proof.
  unfold simulate. intros H H' Hle.
  destruct (sim_loop _ _ _ _ (Z.to_nat max_days) _ _) as [st|e] eqn:Hrun;
    simpl in H; [|discriminate].
  inversion H; subst r; clear H. simpl.
  replace (Z.to_nat max_days')
    with (Z.to_nat max_days + (Z.to_nat max_days' - Z.to_nat max_days))%nat in H'
    by lia.
  destruct (ls_death_day st) as [d|] eqn:Hdeath.
  - rewrite (loop_extend_dead _ _ _ _ _ _ _ (initial_state balance) st) in H';
      [| reflexivity | exact Hrun | congruence].
    inversion H'; subst r'. simpl. exists [], []. now rewrite !app_nil_r.
  - rewrite (loop_extend_alive _ _ _ _ _ _ _ (initial_state balance) st
               eq_refl Hrun Hdeath) in H'.
    destruct (sim_loop _ _ _ _ (Z.to_nat max_days' - Z.to_nat max_days) _ _)
      as [st'|e] eqn:Hrun'; simpl in H'; [|discriminate].
    inversion H'; subst r'; clear H'. simpl.
    apply loop_appended in Hrun'; [|exact Hdeath].
    destruct Hrun' as (ds & bs & Happ).
    exists ds, bs. split.
    + apply (app_dates _ _ _ _ _ _ _ Happ).
    + apply (app_balances _ _ _ _ _ _ _ Happ).
Qed.

Lemma simulate_horizon_prefix_witness :
  exists r r',
    simulate balance_300000 d_2024_01_01 [] fixed_150000 bare 3 = Ok r /\
    simulate balance_300000 d_2024_01_01 [] fixed_150000 bare 5 = Ok r' /\
    3 <= 5 /\
    exists ds bs, dates r' = dates r ++ ds /\ balances r' = balances r ++ bs.
Proof.
  eexists. eexists.
  split; [vm_compute; reflexivity|].
  split; [vm_compute; reflexivity|].
  split; [discriminate|].
  apply (simulate_horizon_prefix
           balance_300000 d_2024_01_01 [] fixed_150000 bare 3 5);
    [vm_compute; reflexivity | vm_compute; reflexivity | discriminate].
Defined.

(** ** Periods of the income entries *)

Lemma income_step_inactive (d : date) (total : float) (e : IncomeEntry) :
  active d e = false -> income_step d total e = total.
Proof.
  unfold active, income_step. intros H.
  destruct (date_ltb d (start e)); [reflexivity|].
  destruct (end_ e) as [last|]; [|discriminate].
  destruct (date_ltb last d); [reflexivity | discriminate].
Qed.

Lemma fold_income_step_active (d : date) (incomes : list IncomeEntry) :
  forall total,
    fold_left (income_step d) incomes total =
    fold_left (income_step d) (filter (active d) incomes) total.
Proof.
  induction incomes as [|e incomes IH]; intros total; simpl; [reflexivity|].
  destruct (active d e) eqn:E; simpl.
  - apply IH.
  - rewrite income_step_inactive by assumption. apply IH.
Qed.

(** X6: the income of a day depends only on the entries whose period contains
    that day; before every start, or after every end, it is [0.0]. *)
Theorem daily_income_active_entries (incomes : list IncomeEntry) (d : date) :
  daily_income incomes d = daily_income (filter (active d) incomes) d /\
  (forallb (fun e => negb (active d e)) incomes = true ->
   daily_income incomes d = Float.zero).
Proof.
  split; [apply fold_income_step_active|].
  intros Hall. unfold daily_income. rewrite fold_income_step_active.
  replace (filter (active d) incomes) with (@nil IncomeEntry); [reflexivity|].
  induction incomes as [|e incomes IH]; [reflexivity|].
  simpl in Hall. apply andb_prop in Hall as [He Hall].
  simpl. destruct (active d e); [discriminate | now apply IH].
Qed.

Lemma daily_income_active_entries_witness :
  daily_income [job_monthly; bonus_once] (mkdate 738885) =
    daily_income (filter (active (mkdate 738885)) [job_monthly; bonus_once])
      (mkdate 738885) /\
  forallb (fun e => negb (active (mkdate 738885) e)) [job_monthly; bonus_once] = true /\
  daily_income [job_monthly; bonus_once] (mkdate 738885) = Float.zero.
Proof.
  destruct (daily_income_active_entries [job_monthly; bonus_once] (mkdate 738885))
    as [H1 H2].
  split; [exact H1|]. split; [reflexivity | apply H2; reflexivity].
Defined.

(** X7: an entry that ends before it starts contributes on no date. *)
Theorem daily_income_empty_period
    (before after : list IncomeEntry) (e : IncomeEntry) (last d : date) :
  end_ e = Some last ->
  date_ltb last (start e) = true ->
  active d e = false /\
  daily_income (before ++ e :: after) d = daily_income (before ++ after) d.
Proof.
  intros Hend Hlt.
  assert (Hin : active d e = false).
  { unfold active, date_ltb in *. rewrite Hend.
    apply Z.ltb_lt in Hlt.
    destruct (toordinal d <? toordinal (start e)) eqn:E1; [reflexivity|].
    apply Z.ltb_ge in E1.
    replace (toordinal last <? toordinal d) with true; [reflexivity|].
    symmetry. apply Z.ltb_lt. lia. }
  split; [exact Hin|].
  unfold daily_income. rewrite !fold_left_app. simpl.
  now rewrite income_step_inactive.
Qed.

Lemma daily_income_empty_period_witness :
  end_ void_entry = Some d_2024_01_01 /\
  date_ltb d_2024_01_01 (start void_entry) = true /\
  active d_2024_01_15 void_entry = false /\
  daily_income ([job_monthly] ++ void_entry :: [bonus_once]) d_2024_01_15 =
  daily_income ([job_monthly] ++ [bonus_once]) d_2024_01_15.
Proof.
  split; [reflexivity|]. split; [reflexivity|].
  apply (daily_income_empty_period [job_monthly] [bonus_once] void_entry d_2024_01_01);
    reflexivity.
Defined.

(** ** Signs of floating point results *)

Lemma leb_zero_iff (x : float) :
  Float.leb Float.zero x = true <->
  match x with
  | S754_zero _ => True
  | S754_infinity s | S754_finite s _ _ => s = false
  | S754_nan => False
  end.
Proof.
  destruct x as [s|[|]| |[|] m e]; simpl; split; intros H;
    try reflexivity; try exact I; try discriminate; try contradiction.
Qed.

Lemma has_sign_nonneg (x : float) : has_sign false x -> Float.leb Float.zero x = true.
Proof.
  intros H. apply leb_zero_iff. destruct x; simpl in *; auto.
Qed.

Lemma shr_nonneg (mrs : shr_record) (e n : Z) :
  0 <= shr_m mrs -> 0 <= shr_m (fst (shr mrs e n)).
Proof.
  intros Hm. destruct n as [|p|p]; simpl; try exact Hm.
  rewrite iter_shr_1_mantissa by exact Hm.
  apply Z.div_pos; [exact Hm | apply Z.pow_pos_nonneg; lia].
Qed.

Lemma shr_fexp_nonneg (m e : Z) (l : location) :
  0 <= m -> 0 <= shr_m (fst (shr_fexp Float.prec Float.emax m e l)).
Proof.
  intros Hm. unfold shr_fexp. apply shr_nonneg.
  destruct l as [|[]]; exact Hm.
Qed.

(** Rounding a non-negative mantissa gives a number of the requested sign. *)
Lemma binary_round_aux_has_sign (s : bool) (m e : Z) (l : location) :
  0 <= m -> has_sign s (binary_round_aux Float.prec Float.emax s m e l).
Proof.
  intros Hm. unfold binary_round_aux.
  pose proof (shr_fexp_nonneg m e l Hm) as H1.
  destruct (shr_fexp Float.prec Float.emax m e l) as [mrs' e']. simpl in H1.
  assert (H2 : 0 <= round_nearest_even (shr_m mrs') (loc_of_shr_record mrs')).
  { unfold round_nearest_even.
    destruct (loc_of_shr_record mrs') as [|[]]; try lia.
    destruct (Z.even (shr_m mrs')); lia. }
  pose proof (shr_fexp_nonneg _ e' loc_Exact H2) as H3.
  destruct (shr_fexp _ _ _ e' loc_Exact) as [mrs'' e'']. simpl in H3.
  destruct (shr_m mrs''); [reflexivity | | lia].
  destruct (e'' <=? Float.emax - Float.prec); reflexivity.
Qed.

Lemma binary_round_has_sign (s : bool) (m : positive) (e : Z) :
  has_sign s (binary_round Float.prec Float.emax s m e).
Proof.
  unfold binary_round.
  destruct (shl_align m e _) as [mz ez].
  apply binary_round_aux_has_sign. lia.
Qed.

Lemma add_nonneg (x y : float) :
  Float.leb Float.zero x = true ->
  Float.leb Float.zero y = true ->
  Float.leb Float.zero (Float.add x y) = true.
Proof.
  rewrite !leb_zero_iff.
  destruct x as [sx|sx| |sx mx ex], y as [sy|sy| |sy my ey]; simpl;
    intros Hx Hy; subst; try exact I; try reflexivity; try contradiction.
  - now destruct sx, sy.
  - rewrite <- leb_zero_iff. apply has_sign_nonneg.
    unfold Float.add, SFadd. simpl cond_Zopp.
    apply (binary_round_has_sign false).
Qed.

Lemma div_nonneg (x : float) (m : positive) (e : Z) :
  Float.leb Float.zero x = true ->
  Float.leb Float.zero (Float.div x (S754_finite false m e)) = true.
Proof.
  intros Hx. apply leb_zero_iff in Hx.
  destruct x as [sx|sx| |sx mx ex]; simpl in Hx; subst;
    try contradiction; try reflexivity.
  apply has_sign_nonneg. unfold Float.div, SFdiv.
  destruct (SFdiv_core_binary _ _ _ _ _ _) as [[mz ez] lz] eqn:E.
  apply (binary_round_aux_has_sign false).
  unfold SFdiv_core_binary in E.
  destruct (Z.div_eucl _ (Z.pos m)) as [q r] eqn:Ediv.
  inversion E; subst mz.
  match type of Ediv with
  | Z.div_eucl ?a ?b = _ =>
      assert (Hq : q = a / b) by (unfold Z.div; now rewrite Ediv);
      assert (Ha : 0 <= a)
  end.
  { match goal with |- 0 <= match ?s with _ => _ end => destruct s eqn:Es end;
      try lia.
    apply Z.shiftl_nonneg. lia. }
  rewrite Hq. apply Z.div_pos; lia.
Qed.

Lemma mul_finite_nonneg (x y : float) :
  float_is_finite x = true -> float_is_finite y = true ->
  Float.leb Float.zero x = true -> Float.leb Float.zero y = true ->
  Float.leb Float.zero (Float.mul x y) = true.
Proof.
  intros Fx Fy Hx Hy. apply leb_zero_iff in Hx, Hy.
  destruct x as [sx|sx| |sx mx ex], y as [sy|sy| |sy my ey];
    simpl in *; subst; try discriminate; try reflexivity.
  apply has_sign_nonneg. unfold Float.mul, SFmul.
  apply (binary_round_aux_has_sign false). lia.
Qed.

(** ** Non-negative incomes and costs *)

(** X8: when no amount is negative (nor NaN), the income of a day is not
    negative (nor NaN). *)
Theorem daily_income_nonneg (incomes : list IncomeEntry) (d : date) :
  Forall (fun e => Float.leb Float.zero (amount e) = true) incomes ->
  Float.leb Float.zero (daily_income incomes d) = true.
Proof.
  intros Hall. unfold daily_income.
  assert (Hgen : forall total,
            Float.leb Float.zero total = true ->
            Float.leb Float.zero (fold_left (income_step d) incomes total) = true).
  { induction Hall as [|e incomes He _ IH]; intros total Ht; simpl; [exact Ht|].
    apply IH. unfold income_step.
    repeat match goal with
           | |- Float.leb _ (if ?c then _ else _) = true => destruct c
           end;
      try exact Ht; apply add_nonneg; try exact Ht; try exact He;
      now apply div_nonneg. }
  now apply Hgen.
Qed.

Lemma daily_income_nonneg_witness :
  Forall (fun e => Float.leb Float.zero (amount e) = true) [job_monthly; bonus_once] /\
  Float.leb Float.zero (daily_income [job_monthly; bonus_once] d_2024_01_15) = true.
Proof.
  assert (H : Forall (fun e => Float.leb Float.zero (amount e) = true)
                [job_monthly; bonus_once]) by (repeat constructor).
  split; [exact H | now apply daily_income_nonneg].
Defined.

Lemma scenario_cost_fold_nonneg (acts : list Activity) :
  Forall (fun a => float_is_finite (cost a) = true /\
                   float_is_finite (days_per_week a) = true /\
                   Float.leb Float.zero (cost a) = true /\
                   Float.leb Float.zero (days_per_week a) = true) acts ->
  forall total,
    Float.leb Float.zero total = true ->
    Float.leb Float.zero
      (fold_left
         (fun total act =>
            Float.add total
              (Float.div (Float.mul (cost act) (days_per_week act)) DAYS_PER_WEEK))
         acts total) = true.
Proof.
  induction 1 as [|a acts (Fc & Fd & Hc & Hd) _ IH]; intros total Ht; simpl;
    [exact Ht|].
  apply IH. apply add_nonneg; [exact Ht|].
  apply div_nonneg. now apply mul_finite_nonneg.
Qed.

(** X9: when every activity has a finite cost and a finite weekly frequency,
    neither negative, the daily cost of the scenario is not negative (nor
    NaN). *)
Theorem daily_scenario_cost_nonneg (scenario : Scenario) :
  Forall (fun a => float_is_finite (cost a) = true /\
                   float_is_finite (days_per_week a) = true /\
                   Float.leb Float.zero (cost a) = true /\
                   Float.leb Float.zero (days_per_week a) = true)
         (activities scenario) ->
  Float.leb Float.zero (daily_scenario_cost scenario) = true.
Proof.
  intros Hall. unfold daily_scenario_cost.
  now apply scenario_cost_fold_nonneg.
Qed.

Lemma daily_scenario_cost_nonneg_witness :
  Forall (fun a => float_is_finite (cost a) = true /\
                   float_is_finite (days_per_week a) = true /\
                   Float.leb Float.zero (cost a) = true /\
                   Float.leb Float.zero (days_per_week a) = true)
         (activities spender) /\
  Float.leb Float.zero (daily_scenario_cost spender) = true.
Proof.
  assert (H : Forall (fun a => float_is_finite (cost a) = true /\
                               float_is_finite (days_per_week a) = true /\
                               Float.leb Float.zero (cost a) = true /\
                               Float.leb Float.zero (days_per_week a) = true)
                (activities spender)) by (repeat constructor).
  split; [exact H | now apply daily_scenario_cost_nonneg].
Defined.

(** ** Activities that never take place *)

Lemma scenario_fold_total_ok (acts : list Activity) : forall total,
  total_ok total ->
  total_ok
    (fold_left
       (fun total act =>
          Float.add total
            (Float.div (Float.mul (cost act) (days_per_week act)) DAYS_PER_WEEK))
       acts total).
Proof.
  induction acts as [|a acts IH]; intros total Ht; simpl; [exact Ht|].
  apply IH. apply add_total_ok; [exact Ht | apply div_bounded].
Qed.

Lemma add_any_zero (x : float) (s : bool) :
  x <> S754_zero true -> Float.add x (S754_zero s) = x.
Proof.
  destruct x as [[|]|[|]| |sx m e], s; intros H; try reflexivity; congruence.
Qed.

(** X10: an activity with a finite cost and a weekly frequency of zero does
    not change the daily cost of a scenario. *)
Theorem daily_scenario_cost_idle_activity
    (n : string) (before after : list Activity) (a : Activity) (s : bool) :
  float_is_finite (cost a) = true ->
  days_per_week a = S754_zero s ->
  daily_scenario_cost (mkScenario n (before ++ a :: after)) =
  daily_scenario_cost (mkScenario n (before ++ after)).
Proof.
  intros Hfin Hzero. unfold daily_scenario_cost. simpl.
  rewrite !fold_left_app. simpl. f_equal.
  match goal with
  | |- Float.add ?t _ = _ =>
      assert (Ht : total_ok t)
        by (apply scenario_fold_total_ok; split; [exact I | discriminate])
  end.
  rewrite Hzero.
  destruct (cost a) as [sc|sc| |sc mc ec]; try discriminate;
    apply add_any_zero, Ht.
Qed.

Lemma daily_scenario_cost_idle_activity_witness :
  float_is_finite (cost idle) = true /\
  days_per_week idle = S754_zero false /\
  daily_scenario_cost (mkScenario "mixed" (activities spender ++ idle :: activities thrifty)) =
  daily_scenario_cost (mkScenario "mixed" (activities spender ++ activities thrifty)).
Proof.
  split; [reflexivity|]. split; [reflexivity|].
  apply (daily_scenario_cost_idle_activity "mixed" _ _ idle false); reflexivity.
Defined.

(** ** The burn rates of a result *)

Lemma mul_nonneg_finite (x : float) (m : positive) (e : Z) :
  Float.leb Float.zero x = true ->
  Float.leb Float.zero (Float.mul x (S754_finite false m e)) = true.
Proof.
  intros Hx. apply leb_zero_iff in Hx.
  destruct x as [sx|sx| |sx mx ex]; simpl in Hx; subst;
    try contradiction; try reflexivity.
  apply has_sign_nonneg. unfold Float.mul, SFmul.
  apply (binary_round_aux_has_sign false). lia.
Qed.

(** X11: a result carries the name of its scenario; its daily burn is the
    fixed costs of a day (a thirtieth of the monthly ones) plus the daily cost
    of the scenario, whatever the balance, the incomes and the horizon; its
    monthly burn is exactly the daily burn times 30; and neither is negative
    when the fixed costs and the costs and frequencies of the activities are
    not. *)
Theorem simulate_burn_rates
    balance start_date incomes fixed_monthly scenario max_days r :
  simulate balance start_date incomes fixed_monthly scenario max_days = Ok r ->
  name r = scn_name scenario /\
  daily_burn r =
    Float.add (Float.div fixed_monthly DAYS_PER_MONTH) (daily_scenario_cost scenario) /\
  monthly_burn r = Float.mul (daily_burn r) DAYS_PER_MONTH /\
  (Float.leb Float.zero fixed_monthly = true ->
   Forall (fun a => float_is_finite (cost a) = true /\
                    float_is_finite (days_per_week a) = true /\
                    Float.leb Float.zero (cost a) = true /\
                    Float.leb Float.zero (days_per_week a) = true)
          (activities scenario) ->
   Float.leb Float.zero (daily_burn r) = true /\
   Float.leb Float.zero (monthly_burn r) = true).
Proof.
  unfold simulate. intros H.
  destruct (sim_loop _ _ _ _ _ _ _) as [st'|e]; simpl in H; [|discriminate].
  inversion H; subst r; clear H; simpl.
  assert (Hburn : Float.leb Float.zero fixed_monthly = true ->
                  Forall (fun a => float_is_finite (cost a) = true /\
                                   float_is_finite (days_per_week a) = true /\
                                   Float.leb Float.zero (cost a) = true /\
                                   Float.leb Float.zero (days_per_week a) = true)
                         (activities scenario) ->
                  Float.leb Float.zero
                    (Float.add (Float.div fixed_monthly DAYS_PER_MONTH)
                       (daily_scenario_cost scenario)) = true).
  { intros Hf Hacts. apply add_nonneg; [now apply div_nonneg|].
    unfold daily_scenario_cost. now apply scenario_cost_fold_nonneg. }
  repeat split; try reflexivity.
  - now apply Hburn.
  - apply mul_nonneg_finite. now apply Hburn.
Qed.

Lemma simulate_burn_rates_witness :
  exists r,
    simulate balance_300000 d_2024_01_01 [job_monthly] fixed_150000 spender 20 = Ok r /\
    Float.leb Float.zero fixed_150000 = true /\
    Forall (fun a => float_is_finite (cost a) = true /\
                     float_is_finite (days_per_week a) = true /\
                     Float.leb Float.zero (cost a) = true /\
                     Float.leb Float.zero (days_per_week a) = true)
           (activities spender) /\
    name r = "spender"%string /\
    daily_burn r = Float.of_Z 10000 /\
    monthly_burn r = Float.of_Z 300000 /\
    monthly_burn r = Float.mul (daily_burn r) DAYS_PER_MONTH /\
    Float.leb Float.zero (daily_burn r) = true /\
    Float.leb Float.zero (monthly_burn r) = true.
Proof.
  eexists. split; [vm_compute; reflexivity|].
  assert (Hacts : Forall (fun a => float_is_finite (cost a) = true /\
                                   float_is_finite (days_per_week a) = true /\
                                   Float.leb Float.zero (cost a) = true /\
                                   Float.leb Float.zero (days_per_week a) = true)
                    (activities spender)) by (repeat constructor).
  split; [reflexivity|]. split; [exact Hacts|].
  split; [reflexivity|]. split; [reflexivity|]. split; [reflexivity|].
  lazymatch goal with
  | |- monthly_burn ?r = _ /\ _ =>
      destruct (simulate_burn_rates
                  balance_300000 d_2024_01_01 [job_monthly] fixed_150000 spender 20 r)
        as (_ & _ & Hm & Hpos); [vm_compute; reflexivity|];
      split; [exact Hm | apply Hpos; [reflexivity | exact Hacts]]
  end.
Defined.

(** ** Truncation, continued *)

(** X12: a truncated series has the requested length, or its own if that is
    shorter; and truncating twice is truncating once, to the smaller length. *)
Theorem truncated_length_compose (r : SimResult) (n m : nat) :
  List.length (dates (truncated r (Z.of_nat n))) = Nat.min n (List.length (dates r)) /\
  List.length (balances (truncated r (Z.of_nat n))) =
    Nat.min n (List.length (balances r)) /\
  truncated (truncated r (Z.of_nat n)) (Z.of_nat m) = truncated r (Z.of_nat (Nat.min m n)).
Proof.
  unfold truncated; simpl. rewrite !slice_to_of_nat, !length_firstn.
  repeat split. f_equal; apply firstn_firstn.
Qed.

Lemma slice_to_all {A : Type} (l : list A) (n : Z) :
  len l <= n -> slice_to l n = l.
Proof.
  unfold len. intros Hn. rewrite slice_to_nonneg by lia.
  apply firstn_all2. lia.
Qed.

(** X13: truncating to a length that both series already fit in returns the
    result unchanged. *)
Theorem truncated_noop (r : SimResult) (n : Z) :
  len (dates r) <= n -> len (balances r) <= n -> truncated r n = r.
Proof.
  intros Hd Hb. destruct r as [nm ds bs dd db mb av]; simpl in *.
  unfold truncated; simpl. now rewrite !slice_to_all.
Qed.

Lemma truncated_noop_witness :
  len (dates (mkSimResult "r" [d_2024_01_01; d_2024_01_15] [balance_300000; Float.zero]
                (Some d_2024_01_15) Float.zero Float.zero Float.zero)) <= 2 /\
  len (balances (mkSimResult "r" [d_2024_01_01; d_2024_01_15] [balance_300000; Float.zero]
                   (Some d_2024_01_15) Float.zero Float.zero Float.zero)) <= 2 /\
  truncated (mkSimResult "r" [d_2024_01_01; d_2024_01_15] [balance_300000; Float.zero]
               (Some d_2024_01_15) Float.zero Float.zero Float.zero) 2 =
  mkSimResult "r" [d_2024_01_01; d_2024_01_15] [balance_300000; Float.zero]
    (Some d_2024_01_15) Float.zero Float.zero Float.zero.
Proof.
  split; [discriminate|]. split; [discriminate|].
  apply truncated_noop; discriminate.
Defined.

(** ** The comparator, continued *)

Lemma Forall2_In_r {A B : Type} (P : A -> B -> Prop) (l : list A) (l' : list B) (y : B) :
  Forall2 P l l' -> In y l' -> exists x, In x l /\ P x y.
Proof.
  induction 1 as [|x y' l l' Hxy _ IH]; intros Hin; [contradiction|].
  destruct Hin as [->|Hin]; [exists x; split; [now left | exact Hxy]|].
  destruct (IH Hin) as (x' & Hx' & HP). exists x'. split; [now right | exact HP].
Qed.

Lemma Forall2_In_l {A B : Type} (P : A -> B -> Prop) (l : list A) (l' : list B) (x : A) :
  Forall2 P l l' -> In x l -> exists y, In y l' /\ P x y.
Proof.
  induction 1 as [|x' y l l' Hxy _ IH]; intros Hin; [contradiction|].
  destruct Hin as [->|Hin]; [exists y; split; [now left | exact Hxy]|].
  destruct (IH Hin) as (y' & Hy' & HP). exists y'. split; [now right | exact HP].
Qed.

(** What the comparator returns, in terms of the simulated results. *)
Lemma run_all_scenarios_inv balance start_date incomes fixed scenarios out :
  _run_all_scenarios balance start_date incomes fixed scenarios = Ok out ->
  exists results,
    Forall2 (fun scn r =>
               simulate balance start_date incomes fixed scn MAX_DAYS_DEFAULT = Ok r)
            scenarios results /\
    out = sort_by sort_key (map (fun r => truncated r (chart_len results)) results).
Proof.
  unfold _run_all_scenarios. intros H.
  destruct (map_result _ scenarios) as [results|e] eqn:Hres; simpl in H; [|discriminate].
  inversion H. exists results. split; [now apply map_result_Forall2 | reflexivity].
Qed.

(** X14: the comparator returns one result per scenario: the names of the
    results are the names of the scenarios, up to the order. *)
Theorem run_all_scenarios_names balance start_date incomes fixed scenarios out :
  _run_all_scenarios balance start_date incomes fixed scenarios = Ok out ->
  Permutation (map name out) (map scn_name scenarios) /\
  List.length out = List.length scenarios.
Proof.
  intros H. apply run_all_scenarios_inv in H as (results & HF & ->).
  assert (Hnames : map name (map (fun r => truncated r (chart_len results)) results) =
                   map scn_name scenarios).
  { rewrite map_map. simpl.
    induction HF as [|scn r scns rs Hsim _ IH]; simpl; [reflexivity|].
    f_equal; [|exact IH].
    unfold simulate in Hsim.
    destruct (sim_loop _ _ _ _ _ _ _); simpl in Hsim; [|discriminate].
    now inversion Hsim. }
  split.
  - rewrite <- Hnames. apply Permutation_map, sort_by_perm.
  - rewrite (Permutation_length (sort_by_perm sort_key _)), length_map.
    symmetry. eapply Forall2_length; eassumption.
Qed.

Lemma run_all_scenarios_names_witness :
  exists out,
    _run_all_scenarios balance_300000 d_2024_01_01 [] Float.zero [saver; spender] = Ok out /\
    map name out = ["spender"%string; "saver"%string] /\
    Permutation (map name out) (map scn_name [saver; spender]) /\
    List.length out = List.length [saver; spender].
Proof.
  eexists. split.
  - rewrite run_all_scenarios_acc_correct. vm_compute. reflexivity.
  - split; [reflexivity|].
    apply (run_all_scenarios_names
             balance_300000 d_2024_01_01 [] Float.zero [saver; spender]).
    rewrite run_all_scenarios_acc_correct. vm_compute. reflexivity.
Defined.

Lemma simulate_lengths balance start_date incomes fixed_monthly scenario max_days r :
  simulate balance start_date incomes fixed_monthly scenario max_days = Ok r ->
  len (dates r) = len (balances r) /\
  len (dates r) <= Z.max max_days 0 /\
  (death_day r = None -> len (dates r) = Z.max max_days 0).
Proof.
  intros H. apply simulate_inv in H as (st' & Happ & Hdd).
  pose proof (app_length _ _ _ _ _ _ _ Happ) as Hlen.
  pose proof (app_bound _ _ _ _ _ _ _ Happ) as Hbound.
  pose proof (app_outcome _ _ _ _ _ _ _ Happ) as Hout.
  unfold len. rewrite <- Hlen. repeat split; try lia.
  intros Hnone. rewrite <- Hdd, Hnone in Hout. destruct Hout as [Hn _]. lia.
Qed.

Lemma chart_len_bounds (results : list SimResult) :
  (forall r, In r results -> death_day r <> None -> len (balances r) <= chart_len results) /\
  (chart_len results = CHART_FALLBACK_DAYS \/
   exists r, In r results /\ death_day r <> None /\ len (balances r) = chart_len results).
Proof.
  unfold chart_len. destruct (death_lens results) as [|x l] eqn:E.
  - split; [|now left]. intros r Hr Hd.
    assert (Hin : In (len (balances r)) (death_lens results))
      by (apply in_death_lens; eauto).
    rewrite E in Hin. contradiction.
  - rewrite <- E.
    destruct (list_max_spec (death_lens results)) as [Hmax Hub]; [congruence|].
    split.
    + intros r Hr Hd. apply Hub, in_death_lens. eauto.
    + right. now apply in_death_lens in Hmax.
Qed.

(** X15: the result of a scenario that depletes is returned as [simulate]
    computed it: the truncation to the chart length never cuts it. *)
Theorem run_all_scenarios_keeps_depleted
    balance start_date incomes fixed scenarios out scn r :
  _run_all_scenarios balance start_date incomes fixed scenarios = Ok out ->
  In scn scenarios ->
  simulate balance start_date incomes fixed scn MAX_DAYS_DEFAULT = Ok r ->
  death_day r <> None ->
  In r out.
Proof.
  intros H Hscn Hsim Hdead.
  apply run_all_scenarios_inv in H as (results & HF & ->).
  destruct (Forall2_In_l _ _ _ _ HF Hscn) as (r' & Hr' & Hsim').
  rewrite Hsim in Hsim'. inversion Hsim'; subst r'.
  apply (Permutation_in _ (Permutation_sym (sort_by_perm sort_key _))).
  apply in_map_iff. exists r. split; [|exact Hr'].
  apply simulate_lengths in Hsim as (Hlen & _).
  destruct (chart_len_bounds results) as [Hub _].
  specialize (Hub r Hr' Hdead).
  destruct r as [nm ds bs dd db mb av]; simpl in *.
  unfold truncated; simpl. now rewrite !slice_to_all by lia.
Qed.

Lemma run_all_scenarios_keeps_depleted_witness :
  exists out r,
    _run_all_scenarios balance_300000 d_2024_01_01 [] Float.zero [saver; spender] = Ok out /\
    In spender [saver; spender] /\
    simulate balance_300000 d_2024_01_01 [] Float.zero spender MAX_DAYS_DEFAULT = Ok r /\
    death_day r <> None /\
    In r out.
Proof.
  eexists. eexists. split.
  - rewrite run_all_scenarios_acc_correct. vm_compute. reflexivity.
  - split; [right; left; reflexivity|].
    split; [vm_compute; reflexivity|].
    split; [discriminate|].
    apply (run_all_scenarios_keeps_depleted
             balance_300000 d_2024_01_01 [] Float.zero [saver; spender] _ spender).
    + rewrite run_all_scenarios_acc_correct. vm_compute. reflexivity.
    + right; left; reflexivity.
    + vm_compute. reflexivity.
    + discriminate.
Defined.

(** X16: in what the comparator returns, the two series of a result have the
    same length, no series is longer than the chart length, and the series of
    every survivor has exactly the chart length. *)
Theorem run_all_scenarios_lengths balance start_date incomes fixed scenarios out :
  _run_all_scenarios balance start_date incomes fixed scenarios = Ok out ->
  exists results,
    map_result
      (fun scn => simulate balance start_date incomes fixed scn MAX_DAYS_DEFAULT)
      scenarios = Ok results /\
    forall r, In r out ->
      len (dates r) = len (balances r) /\
      len (dates r) <= chart_len results /\
      (death_day r = None -> len (dates r) = chart_len results).
Proof.
  unfold _run_all_scenarios. intros H.
  destruct (map_result _ scenarios) as [results|e] eqn:Hres; simpl in H; [|discriminate].
  inversion H; subst out; clear H.
  exists results. split; [reflexivity|].
  apply map_result_Forall2 in Hres.
  intros r' Hin.
  apply (Permutation_in _ (sort_by_perm sort_key _)) in Hin.
  apply in_map_iff in Hin as (r & <- & Hr).
  destruct (Forall2_In_r _ _ _ _ Hres Hr) as (scn & _ & Hsim).
  apply simulate_lengths in Hsim as (Hlen & Hmax & Hsurv).
  pose proof (chart_len_nonneg results) as Hnn.
  assert (Hcap : chart_len results <= MAX_DAYS_DEFAULT).
  { destruct (chart_len_bounds results) as [_ [->|(r0 & Hr0 & _ & <-)]];
      [unfold CHART_FALLBACK_DAYS, MAX_DAYS_DEFAULT; lia|].
    destruct (Forall2_In_r _ _ _ _ Hres Hr0) as (scn0 & _ & Hsim0).
    apply simulate_lengths in Hsim0 as (Hlen0 & Hmax0 & _).
    unfold MAX_DAYS_DEFAULT in *. lia. }
  unfold truncated, len in *; simpl.
  rewrite !slice_to_nonneg by lia. rewrite !length_firstn.
  repeat split; try lia.
  intros Hnone. specialize (Hsurv Hnone). unfold MAX_DAYS_DEFAULT in *. lia.
Qed.

Lemma run_all_scenarios_lengths_witness :
  exists out,
    _run_all_scenarios balance_300000 d_2024_01_01 [] Float.zero [saver; spender] = Ok out /\
    exists results,
      map_result
        (fun scn => simulate balance_300000 d_2024_01_01 [] Float.zero scn MAX_DAYS_DEFAULT)
        [saver; spender] = Ok results /\
      forall r, In r out ->
        len (dates r) = len (balances r) /\
        len (dates r) <= chart_len results /\
        (death_day r = None -> len (dates r) = chart_len results).
Proof.
  eexists. split.
  - rewrite run_all_scenarios_acc_correct. vm_compute. reflexivity.
  - apply (run_all_scenarios_lengths
             balance_300000 d_2024_01_01 [] Float.zero [saver; spender]).
    rewrite run_all_scenarios_acc_correct. vm_compute. reflexivity.
Defined.

(** ** The order of the results *)

(** X17: of two results of the comparator, the earlier one has the earlier
    death day, or the same, when both are depleted; and a survivor comes before
    a depleted result only if that one died on [date.max]. *)
Theorem run_all_scenarios_order
    balance start_date incomes fixed scenarios out l1 a l2 b l3 :
  _run_all_scenarios balance start_date incomes fixed scenarios = Ok out ->
  out = l1 ++ a :: l2 ++ b :: l3 ->
  match death_day a, death_day b with
  | Some da, Some db => toordinal da <= toordinal db
  | None, Some db => db = date_max
  | _, None => True
  end.
Proof.
  intros Hrun ->. apply run_all_scenarios_sorted in Hrun.
  assert (Hsuffix : forall l l' : list SimResult,
             StronglySorted (key_le sort_key) (l ++ l') ->
             StronglySorted (key_le sort_key) l').
  { induction l as [|x l IH]; simpl; intros l' Hs; [exact Hs|].
    apply StronglySorted_inv in Hs as [Hs _]. now apply IH. }
  apply Hsuffix in Hrun.
  apply StronglySorted_inv in Hrun as [_ Hall].
  rewrite Forall_forall in Hall.
  assert (Hle : key_le sort_key a b) by (apply Hall, in_or_app; right; now left).
  unfold key_le, sort_key in Hle.
  destruct (death_day a) as [da|], (death_day b) as [db|]; simpl in Hle; auto.
  apply date_ext. pose proof (toordinal_range db). simpl. lia.
Qed.

Lemma run_all_scenarios_order_witness :
  exists out a b,
    _run_all_scenarios (Float.of_Z 100) d_2024_01_01 [] Float.zero [thrifty; spender]
      = Ok out /\
    out = [] ++ a :: [] ++ b :: [] /\
    name a = "spender"%string /\ name b = "thrifty"%string /\
    match death_day a, death_day b with
    | Some da, Some db => toordinal da <= toordinal db
    | None, Some db => db = date_max
    | _, None => True
    end.
Proof.
  eexists. eexists. eexists.
  split; [vm_compute; reflexivity|].
  split; [reflexivity|].
  lazymatch goal with
  | |- name ?x = _ /\ name ?y = _ /\ _ =>
      split; [reflexivity|]; split; [reflexivity|];
      apply (run_all_scenarios_order
               (Float.of_Z 100) d_2024_01_01 [] Float.zero [thrifty; spender]
               [x; y] [] x [] y []);
      [vm_compute; reflexivity | reflexivity]
  end.
Defined.

Lemma run_all_scenarios_stable_witness :
  exists out,
    _run_all_scenarios balance_300000 d_2024_01_01 [] Float.zero [saver; bare; spender]
      = Ok out /\
    map name out = ["spender"%string; "saver"%string; "bare"%string] /\
    exists results,
      map_result
        (fun scn => simulate balance_300000 d_2024_01_01 [] Float.zero scn MAX_DAYS_DEFAULT)
        [saver; bare; spender] = Ok results /\
      forall p,
        filter (fun r => toordinal (sort_key r) =? p) out =
        filter (fun r => toordinal (sort_key r) =? p)
               (map (fun r => truncated r (chart_len results)) results).
Proof.
  eexists. split.
  - rewrite run_all_scenarios_acc_correct. vm_compute. reflexivity.
  - split; [reflexivity|].
    apply (run_all_scenarios_stable
             balance_300000 d_2024_01_01 [] Float.zero [saver; bare; spender]).
    rewrite run_all_scenarios_acc_correct. vm_compute. reflexivity.
Defined.

(** ** The death day in words *)

Lemma string_length_append (s1 s2 : string) :
  String.length (s1 ++ s2) = (String.length s1 + String.length s2)%nat.
Proof.
  induction s1 as [|c s1 IH]; simpl; [reflexivity | now rewrite IH].
Qed.

(** X19: [format_death_info] answers "Survives" exactly when there is no
    death day, however dates and floats are printed. *)
Theorem format_death_info_survives
    (str_date : date -> string) (format_1f : float -> string)
    (death_day : option date) (start_date : date) :
  format_death_info str_date format_1f death_day start_date = "Survives"%string <->
  death_day = None.
Proof.
  split; [|intros ->; reflexivity].
  destruct death_day as [d|]; [|reflexivity].
  intros H. apply (f_equal String.length) in H.
  unfold format_death_info in H.
  rewrite !string_length_append in H. simpl in H. lia.
Qed.

(** X20: for a result of [simulate] with a death day, the number of days
    printed is the number of recorded days minus one, and the number of months
    is that number divided by 30. *)
Theorem format_death_info_of_simulate
    (str_date : date -> string) (format_1f : float -> string)
    balance start_date incomes fixed_monthly scenario max_days r d :
  simulate balance start_date incomes fixed_monthly scenario max_days = Ok r ->
  death_day r = Some d ->
  format_death_info str_date format_1f (death_day r) start_date =
    (str_date d ++ "  (" ++ str_int (len (dates r) - 1) ++ " days / " ++
     format_1f (Float.div (Float.of_Z (len (dates r) - 1)) DAYS_PER_MONTH) ++
     " months)")%string.
Proof.
  intros Hsim Hdeath.
  apply simulate_inv in Hsim as (st' & Happ & Hdd).
  pose proof (app_outcome _ _ _ _ _ _ _ Happ) as Hout.
  rewrite <- Hdd, Hdeath in Hout.
  destruct Hout as (ds0 & bs0 & b & Hds & _).
  assert (Hk : nth_error (dates r) (List.length ds0) = Some d).
  { rewrite Hds, nth_error_app2, Nat.sub_diag by lia. reflexivity. }
  apply (app_days _ _ _ _ _ _ _ Happ) in Hk.
  assert (Hoff : toordinal d - toordinal start_date = len (dates r) - 1).
  { unfold len. rewrite Hds, length_app. simpl. lia. }
  rewrite Hdeath. unfold format_death_info. now rewrite Hoff.
Qed.

Lemma format_death_info_of_simulate_witness :
  exists r,
    simulate balance_300000 d_2024_01_01 [] fixed_150000 bare MAX_DAYS_DEFAULT = Ok r /\
    death_day r = Some d_2024_03_01 /\
    str_int (len (dates r) - 1) = "60"%string /\
    format_death_info (fun _ => "2024-03-01"%string) (fun _ => "2.0"%string)
      (death_day r) d_2024_01_01 =
      "2024-03-01  (60 days / 2.0 months)"%string /\
    format_death_info (fun _ => "2024-03-01"%string) (fun _ => "2.0"%string)
      (death_day r) d_2024_01_01 =
      ("2024-03-01" ++ "  (" ++ str_int (len (dates r) - 1) ++ " days / " ++
       "2.0" ++ " months)")%string.
Proof.
  eexists.
  split; [vm_compute; reflexivity|].
  split; [reflexivity|]. split; [reflexivity|]. split; [reflexivity|].
  apply (format_death_info_of_simulate
           (fun _ => "2024-03-01"%string) (fun _ => "2.0"%string)
           balance_300000 d_2024_01_01 [] fixed_150000 bare MAX_DAYS_DEFAULT
           _ d_2024_03_01);
    [vm_compute|]; reflexivity.
Defined.

(** ** The ticks of the balance axis *)

Lemma tick_step_cases (y : Z) :
  (tick_step y = 1000 /\ y / 5 / 1000 <= 1) \/
  (tick_step y = y / 5 / 1000 * 1000 /\ 1 <= y / 5 / 1000).
Proof. unfold tick_step. lia. Qed.

Lemma y_max_of_upper (all_bals : list Z) (b : Z) :
  In b all_bals -> b <= y_max_of all_bals.
Proof.
  intros Hin. unfold y_max_of. destruct all_bals as [|x l] eqn:E; [contradiction|].
  rewrite <- E in *. apply list_max_spec; [congruence | exact Hin].
Qed.

(** X21: the step of the ticks is a multiple of 1000, at least 1000; the top
    tick is the least multiple of the step above the largest balance, so every
    plotted balance lies below it. *)
Theorem y_axis_covers (all_bals : list Z) :
  let y_max := y_max_of all_bals in
  let step := tick_step y_max in
  let top := tick_top y_max in
  1000 <= step /\
  (1000 | step) /\
  (step | top) /\
  top - step <= y_max < top /\
  (forall b, In b all_bals -> b < top).
Proof.
  intros y_max step top.
  assert (Hstep : 1000 <= step) by (unfold step, tick_step; lia).
  assert (Hdiv : (1000 | step)).
  { destruct (tick_step_cases y_max) as [[E _]|[E _]]; unfold step; rewrite E.
    - exists 1. reflexivity.
    - exists (y_max / 5 / 1000). reflexivity. }
  assert (Hrange : top - step <= y_max < top).
  { unfold top, tick_top. fold step.
    pose proof (Z.mul_div_le y_max step ltac:(lia)).
    pose proof (Z.mul_succ_div_gt y_max step ltac:(lia)). lia. }
  repeat split; try lia; try exact Hdiv.
  - exists (y_max / step + 1). reflexivity.
  - intros b Hb. apply y_max_of_upper in Hb. fold y_max in Hb. lia.
Qed.

Lemma last_map_seq (f : nat -> Z) (n : nat) :
  last (map f (seq 0 (S n))) 0 = f n.
Proof.
  rewrite seq_S, map_app. simpl. apply last_last.
Qed.

(** X22: when the largest balance is not negative, the ticks are the multiples
    of the step from 0 to the top tick, and there are between 2 and 11 of
    them. *)
Theorem y_ticks_shape (all_bals : list Z) :
  0 <= y_max_of all_bals ->
  let y_max := y_max_of all_bals in
  let step := tick_step y_max in
  y_ticks all_bals =
    map (fun i => Z.of_nat i * step) (seq 0 (Z.to_nat (y_max / step) + 2)) /\
  hd_error (y_ticks all_bals) = Some 0 /\
  last (y_ticks all_bals) 0 = tick_top y_max /\
  (2 <= List.length (y_ticks all_bals) <= 11)%nat.
Proof.
  intros Hpos y_max step.
  assert (Hstep : 1000 <= step) by (unfold step, tick_step; lia).
  assert (Hq : 0 <= y_max / step) by (apply Z.div_pos; lia).
  assert (Hcount : (tick_top y_max + 1 + step - 1) / step = y_max / step + 2).
  { unfold tick_top. fold step.
    replace ((y_max / step + 1) * step + 1 + step - 1)
      with ((y_max / step + 2) * step) by lia.
    apply Z.div_mul. lia. }
  assert (Hticks : y_ticks all_bals =
            map (fun i => Z.of_nat i * step) (seq 0 (Z.to_nat (y_max / step) + 2))).
  { unfold y_ticks, range_step. fold y_max. fold step. rewrite Hcount.
    f_equal. f_equal. lia. }
  assert (Hq9 : y_max / step <= 9).
  { apply Z.lt_succ_r. apply Z.div_lt_upper_bound; [lia|].
    pose proof (Z.mul_succ_div_gt (y_max / 5) 1000 ltac:(lia)).
    pose proof (Z.mul_succ_div_gt y_max 5 ltac:(lia)).
    destruct (tick_step_cases y_max) as [[E Hk]|[E Hk]]; unfold step; rewrite E; lia. }
  split; [exact Hticks|]. rewrite Hticks. split; [|split].
  - replace (Z.to_nat (y_max / step) + 2)%nat with (S (S (Z.to_nat (y_max / step))))
      by lia. reflexivity.
  - replace (Z.to_nat (y_max / step) + 2)%nat with (S (Z.to_nat (y_max / step) + 1))
      by lia.
    rewrite last_map_seq. unfold tick_top. fold step. lia.
  - rewrite length_map, length_seq. lia.
Qed.

Lemma y_ticks_shape_witness :
  0 <= y_max_of sample_bals /\
  y_ticks sample_bals = [0; 60000; 120000; 180000; 240000; 300000; 360000] /\
  y_ticks sample_bals =
    map (fun i => Z.of_nat i * tick_step (y_max_of sample_bals))
      (seq 0 (Z.to_nat (y_max_of sample_bals / tick_step (y_max_of sample_bals)) + 2)) /\
  hd_error (y_ticks sample_bals) = Some 0 /\
  last (y_ticks sample_bals) 0 = tick_top (y_max_of sample_bals) /\
  (2 <= List.length (y_ticks sample_bals) <= 11)%nat.
Proof.
  split; [discriminate|]. split; [reflexivity|].
  apply y_ticks_shape. discriminate.
Defined.

(** ** Errors of the comparator *)

Lemma map_result_raises {A B : Type} (f : A -> result B) (l : list A) (e : exn) :
  map_result f l = Raise e <-> exists x, In x l /\ f x = Raise e.
Proof.
  induction l as [|x l IH]; simpl.
  - split; [discriminate | intros (x & [] & _)].
  - destruct (f x) as [y|e'] eqn:Ef; simpl.
    + destruct (map_result f l) as [ys|e'] eqn:El; simpl.
      * split; [discriminate|].
        intros (x' & [<-|Hin] & Hx'); [congruence|].
        pose proof (proj2 IH (ex_intro _ x' (conj Hin Hx'))) as Hr. discriminate.
      * split.
        -- intros H. inversion H; subst e'.
           destruct (proj1 IH eq_refl) as (x' & Hin & Hx'). eauto.
        -- intros _. destruct e, e'. reflexivity.
    + split.
      * intros H. inversion H; subst e'. eauto.
      * intros _. destruct e, e'. reflexivity.
Qed.

(** X23: the comparator raises exactly when the simulation of one of the
    scenarios does: a single scenario whose run passes [date.max] makes the
    whole comparison fail, and nothing else does. *)
Theorem run_all_scenarios_raises balance start_date incomes fixed scenarios :
  _run_all_scenarios balance start_date incomes fixed scenarios = Raise OverflowError <->
  exists scn,
    In scn scenarios /\
    simulate balance start_date incomes fixed scn MAX_DAYS_DEFAULT = Raise OverflowError.
Proof.
  rewrite <- (map_result_raises
                (fun scn => simulate balance start_date incomes fixed scn MAX_DAYS_DEFAULT)).
  unfold _run_all_scenarios.
  destruct (map_result _ scenarios) as [results|[]]; simpl.
  - split; discriminate.
  - split; reflexivity.
Qed.

Lemma run_all_scenarios_raises_witness :
  In saver [spender; saver] /\
  simulate balance_300000 d_9999_12_31 [] Float.zero saver MAX_DAYS_DEFAULT
    = Raise OverflowError /\
  _run_all_scenarios balance_300000 d_9999_12_31 [] Float.zero [spender; saver]
    = Raise OverflowError.
Proof.
  assert (H : simulate balance_300000 d_9999_12_31 [] Float.zero saver MAX_DAYS_DEFAULT
              = Raise OverflowError) by (vm_compute; reflexivity).
  split; [right; now left|]. split; [exact H|].
  apply (proj2 (run_all_scenarios_raises
                  balance_300000 d_9999_12_31 [] Float.zero [spender; saver])).
  exists saver. split; [right; now left | exact H].
Defined.
